(** * capi-migration-controller: the Azure migrator and the Cluster reconciler

    A shallow embedding of [pkg/migration/azure_crs.go] and of the
    [ClusterReconciler] of package [controllers], with the properties the
    specification states about them.

    Go values are modelled as follows.
    - [string] is [String.string]; a [byte] is a [Z] in [0, 256) and byte
      arithmetic is written with its wrap-around.
    - [map[string]T] is stdpp's [gmap string T].
    - A pointer that may be nil is an [option].
    - An [error] result is [option error] ([None] is [nil]).
    - A method that talks to the API server is a command tree ([prog]):
      every call on the [ctrl.Client] interface is a node and the answer of
      the client selects the continuation.  A tree is run against any
      implementation of the interface ([CtrlClient]); [memClient] is an
      in-memory API server.
    - A panic is the leaf [Panic]. *)

From Stdlib Require Import ZArith String Ascii List DecimalString.
From stdpp Require Import base gmap list strings.

Open Scope string_scope.
Open Scope Z_scope.

(* ===================================================================== *)
(** * Errors *)
(* ===================================================================== *)

(** [metav1.StatusReason], the reasons the migrator can meet. *)
Inductive StatusReason :=
| StatusReasonUnknown
| StatusReasonNotFound
| StatusReasonAlreadyExists
| StatusReasonInvalid
| StatusReasonTimeout
| StatusReasonInternalError.

(** Go [error] values.  [Errorf] keeps the format and the operands of
    [fmt.Errorf] apart; [Masked] is what [microerror.Mask] returns: the
    same error annotated with the call site. *)
Inductive error :=
| Errorf (format : string) (operands : list string)
| StatusError (reason : StatusReason) (message : string)
| ParseError (type text : string)
| OtherError (message : string)
| Masked (e : error).

(** [microerror.Mask] on a non-nil error. *)
Definition Mask (e : error) : error := Masked e.

(** [microerror.Cause]: the error below all the masks. *)
Fixpoint Cause (e : error) : error :=
  match e with
  | Masked e' => Cause e'
  | _ => e
  end.

(** [apierrors.ReasonForError]. *)
Fixpoint ReasonForError (e : error) : StatusReason :=
  match e with
  | StatusError r _ => r
  | Masked e' => ReasonForError e'
  | _ => StatusReasonUnknown
  end.

Definition IsAlreadyExists (e : error) : bool :=
  match ReasonForError e with
  | StatusReasonAlreadyExists => true
  | _ => false
  end.

Definition IsNotFound (e : error) : bool :=
  match ReasonForError e with
  | StatusReasonNotFound => true
  | _ => false
  end.

(** A value or an error: the result of a call that fills an out
    parameter and returns an [error]. *)
Inductive result (A : Type) :=
| Ok (a : A)
| Err (e : error).
Arguments Ok {A} a.
Arguments Err {A} e.

(* ===================================================================== *)
(** * Package strings and fmt *)
(* ===================================================================== *)

Module strings.

(** [strings.Split(s, sep)] for a separator of one byte, which is how the
    source calls it.  The empty string splits into one empty field. *)
Fixpoint Split (s : string) (sep : ascii) : list string :=
  match s with
  | EmptyString => [EmptyString]
  | String c s' =>
      if Ascii.eqb c sep then EmptyString :: Split s' sep
      else match Split s' sep with
           | [] => [String c EmptyString]
           | field :: fields => String c field :: fields
           end
  end.

(** [strings.Join(elems, sep)]. *)
Definition Join (elems : list string) (sep : string) : string :=
  String.concat sep elems.

(** [strings.TrimPrefix(s, prefix)]. *)
Fixpoint TrimPrefix_aux (s prefix : string) : option string :=
  match prefix, s with
  | EmptyString, _ => Some s
  | String p prefix', String c s' =>
      if Ascii.eqb c p then TrimPrefix_aux s' prefix' else None
  | String _ _, EmptyString => None
  end.

Definition TrimPrefix (s prefix : string) : string :=
  match TrimPrefix_aux s prefix with
  | Some rest => rest
  | None => s
  end.

End strings.

Module fmt.

(** [strconv.FormatInt(n, 10)] and [uitoa]. *)
Definition FormatInt (n : Z) : string := NilZero.string_of_int (Z.to_int n).

(** [fmt.Sprintf(format, arg)] for a format whose only verb is one [%s]:
    the operand replaces the first [%s]. *)
Fixpoint Sprintf_s (format arg : string) : string :=
  match format with
  | EmptyString => EmptyString
  | String c rest =>
      match rest with
      | String d rest' =>
          if (Ascii.eqb c "%" && Ascii.eqb d "s")%bool then arg +:+ rest'
          else String c (Sprintf_s rest arg)
      | EmptyString => String c EmptyString
      end
  end.

End fmt.

(* ===================================================================== *)
(** * Package net: IPv4 addresses and CIDR notation *)
(* ===================================================================== *)

Module net.

(** [net.IP] and [net.IPMask] are byte slices; nil is the empty slice. *)
Definition IP := list Z.
Definition IPMask := list Z.

Record IPNet := { IP_ : IP; Mask_ : IPMask }.

Definition IPv4len : nat := 4.
Definition IPv6len : nat := 16.

Definition v4InV6Prefix : list Z := [0; 0; 0; 0; 0; 0; 0; 0; 0; 0; 255; 255].

Definition byte (n : Z) : Z := n mod 256.

(** [net.IPv4(a, b, c, d)]: the 16-byte form of an IPv4 address. *)
Definition IPv4 (a b c d : Z) : IP := (v4InV6Prefix ++ [a; b; c; d])%list.

Definition bytes_eqb (x y : list Z) : bool := bool_decide (x = y).

(** [ip.To4()]: [None] is the nil result. *)
Definition To4 (ip : IP) : option IP :=
  if (length ip =? IPv4len)%nat then Some ip
  else if ((length ip =? IPv6len)%nat && bytes_eqb (take 12 ip) v4InV6Prefix)%bool
       then Some (drop 12 ip)
       else None.

(** Indexing a byte slice that is known to be long enough. *)
Definition at_ (ip : list Z) (i : nat) : Z := nth i ip 0.

Definition is_digit (c : ascii) : bool :=
  ((48 <=? nat_of_ascii c)%nat && (nat_of_ascii c <=? 57)%nat)%bool.

Definition big : Z := 16777215.

(** The loop of [dtoi]: [n] is the number read so far and [i] the number
    of bytes consumed.  The result holds the text that is left. *)
Fixpoint dtoi_loop (s : string) (n : Z) (i : nat) : Z * nat * bool * string :=
  match s with
  | String c s' =>
      if is_digit c then
        let n' := n * 10 + (Z.of_nat (nat_of_ascii c) - 48) in
        if big <=? n' then (big, i, false, s)
        else dtoi_loop s' n' (S i)
      else (n, i, true, s)
  | EmptyString => (n, i, true, s)
  end.

(** [dtoi(s)]: decimal to integer; returns number, bytes consumed,
    success, and here also the rest [s[i:]]. *)
Definition dtoi (s : string) : Z * nat * bool * string :=
  match dtoi_loop s 0 0 with
  | (n, i, ok, rest) =>
      if negb ok then (n, i, false, rest)
      else if (i =? 0)%nat then (0, 0%nat, false, s)
      else (n, i, true, rest)
  end.

Definition first_is (s : string) (c : ascii) : bool :=
  match s with
  | String d _ => Ascii.eqb d c
  | EmptyString => false
  end.

Definition tail (s : string) : string :=
  match s with
  | String _ s' => s'
  | EmptyString => EmptyString
  end.

(** The loop of [parseIPv4] over the octets [i .. 3]; [p] holds the
    octets read so far. *)
Fixpoint parseIPv4_loop (todo : nat) (i : nat) (s : string) (p : list Z)
  : option (list Z * string) :=
  match todo with
  | O => Some (p, s)
  | S todo' =>
      if (String.length s =? 0)%nat then None
      else
        let after_dot :=
          if (0 <? i)%nat then
            if first_is s "." then Some (tail s) else None
          else Some s in
        match after_dot with
        | None => None
        | Some s1 =>
            match dtoi s1 with
            | (n, c, ok, rest) =>
                if (negb ok || (255 <? n))%bool then None
                else if ((1 <? c)%nat && first_is s1 "0")%bool then None
                else parseIPv4_loop todo' (S i) rest (p ++ [byte n])%list
            end
        end
  end.

(** [parseIPv4(s)]: dotted decimal, four octets, nothing after them. *)
Definition parseIPv4 (s : string) : option IP :=
  match parseIPv4_loop IPv4len 0 s [] with
  | Some (p, rest) =>
      if (String.length rest =? 0)%nat
      then Some (IPv4 (at_ p 0) (at_ p 1) (at_ p 2) (at_ p 3))
      else None
  | None => None
  end.

(** The loop of [CIDRMask]: [n] ones are still to be written in [l]
    bytes. *)
Fixpoint CIDRMask_loop (l : nat) (n : Z) : IPMask :=
  match l with
  | O => []
  | S l' =>
      if 8 <=? n then 255 :: CIDRMask_loop l' (n - 8)
      else Z.lxor 255 (Z.shiftr 255 n) :: CIDRMask_loop l' 0
  end.

(** [net.CIDRMask(ones, bits)]: [None] is the nil result. *)
Definition CIDRMask (ones bits : Z) : option IPMask :=
  if (negb (bits =? 32) && negb (bits =? 128))%bool then None
  else if ((ones <? 0) || (bits <? ones))%bool then None
  else Some (CIDRMask_loop (Z.to_nat (bits / 8)) ones).

Definition allFF (b : list Z) : bool := forallb (Z.eqb 255) b.

(** [ip.Mask(mask)]: [None] is the nil result. *)
Definition Mask (ip : IP) (mask : IPMask) : option IP :=
  let mask :=
    if ((length mask =? IPv6len)%nat && (length ip =? IPv4len)%nat
        && allFF (take 12 mask))%bool
    then drop 12 mask else mask in
  let ip :=
    if ((length mask =? IPv4len)%nat && (length ip =? IPv6len)%nat
        && bytes_eqb (take 12 ip) v4InV6Prefix)%bool
    then drop 12 ip else ip in
  if (length ip =? length mask)%nat
  then Some (zip_with Z.land ip mask)
  else None.

(** Position of the first byte [c] in [s], with the text before and
    after it: [bytealg.IndexByteString] and the two slices the caller
    takes. *)
Fixpoint cut (s : string) (c : ascii) : option (string * string) :=
  match s with
  | EmptyString => None
  | String d s' =>
      if Ascii.eqb d c then Some (EmptyString, s')
      else match cut s' c with
           | Some (before, after) => Some (String d before, after)
           | None => None
           end
  end.

(** The text forms of IPv6 are not needed by the migrator; the two
    functions of package net that deal with them are taken as given. *)
Class IPv6Text := {
  parseIPv6 : string -> option IP;
  ip6String : IP -> string
}.

Section WithIPv6.
Context `{IPv6Text}.

(** [net.ParseCIDR(s)], the [*IPNet] result. *)
Definition ParseCIDR (s : string) : result IPNet :=
  match cut s "/" with
  | None => Err (ParseError "CIDR address" s)
  | Some (addr, mask) =>
      let '(iplen, ip) :=
        match parseIPv4 addr with
        | Some ip => (IPv4len, Some ip)
        | None => (IPv6len, parseIPv6 addr)
        end in
      match dtoi mask with
      | (n, i, ok, _) =>
          match ip with
          | None => Err (ParseError "CIDR address" s)
          | Some ip =>
              if (negb ok || negb (i =? String.length mask)%nat
                  || (n <? 0) || (8 * Z.of_nat iplen <? n))%bool
              then Err (ParseError "CIDR address" s)
              else
                match CIDRMask n (8 * Z.of_nat iplen) with
                | Some m =>
                    Ok {| IP_ := default [] (Mask ip m); Mask_ := m |}
                | None => Err (ParseError "CIDR address" s)
                end
          end
      end
  end.

(** [ip.String()]. *)
Definition IP_String (ip : IP) : string :=
  if (length ip =? 0)%nat then "<nil>"
  else match To4 ip with
       | Some p4 =>
           fmt.FormatInt (at_ p4 0) +:+ "." +:+ fmt.FormatInt (at_ p4 1) +:+ "."
           +:+ fmt.FormatInt (at_ p4 2) +:+ "." +:+ fmt.FormatInt (at_ p4 3)
       | None => ip6String ip
       end.

(** The inner loop of [simpleMaskLength]: count the leading one bits
    of the byte [v], shifting it left in 8 bits. *)
Fixpoint leading_ones (fuel : nat) (v : Z) (n : Z) : Z * Z :=
  match fuel with
  | O => (v, n)
  | S fuel' =>
      if negb (Z.land v 128 =? 0)
      then leading_ones fuel' (byte (Z.shiftl v 1)) (n + 1)
      else (v, n)
  end.

(** [simpleMaskLength(mask)]: the number of leading ones when the mask
    is ones followed by zeros, and -1 otherwise. *)
Fixpoint simpleMaskLength_loop (mask : list Z) (n : Z) : Z :=
  match mask with
  | [] => n
  | v :: mask' =>
      if v =? 255 then simpleMaskLength_loop mask' (n + 8)
      else
        let '(v', n') := leading_ones 8 v n in
        if negb (v' =? 0) then -1
        else if forallb (Z.eqb 0) mask' then n' else -1
  end.

Definition simpleMaskLength (mask : IPMask) : Z := simpleMaskLength_loop mask 0.

Definition hexDigit (n : Z) : string :=
  String.substring (Z.to_nat n) 1 "0123456789abcdef".

(** [m.String()] of an [IPMask]: hexadecimal without punctuation. *)
Definition IPMask_String (m : IPMask) : string :=
  if (length m =? 0)%nat then "<nil>"
  else String.concat "" (map (fun b => hexDigit (Z.shiftr b 4) +:+ hexDigit (Z.land b 15)) m).

(** [networkNumberAndMask(n)]: [None] is the pair of nils. *)
Definition networkNumberAndMask (n : IPNet) : option (IP * IPMask) :=
  let ip :=
    match To4 (IP_ n) with
    | Some ip => Some ip
    | None => if (length (IP_ n) =? IPv6len)%nat then Some (IP_ n) else None
    end in
  match ip with
  | None => None
  | Some ip =>
      let m := Mask_ n in
      if (length m =? IPv4len)%nat then
        if (length ip =? IPv4len)%nat then Some (ip, m) else None
      else if (length m =? IPv6len)%nat then
        if (length ip =? IPv4len)%nat then Some (ip, drop 12 m) else Some (ip, m)
      else None
  end.

(** [n.String()] of an [*IPNet]. *)
Definition IPNet_String (n : IPNet) : string :=
  match networkNumberAndMask n with
  | None => "<nil>"
  | Some (nn, m) =>
      let l := simpleMaskLength m in
      if l =? -1 then IP_String nn +:+ "/" +:+ IPMask_String m
      else IP_String nn +:+ "/" +:+ fmt.FormatInt l
  end.

End WithIPv6.

End net.

(* ===================================================================== *)
(** * Kubernetes objects *)
(* ===================================================================== *)

(** [time.Duration]: nanoseconds. *)
Definition Duration := Z.
Definition Second : Duration := 1000000000.

(** [metav1.Time]: an instant, as the offset from the zero [time.Time]. *)
Definition Time := Z.

Record TypeMeta := { Kind : string; APIVersion : string }.

Record ObjectMeta := {
  Name : string;
  Namespace : string;
  Labels : gmap string string;
  DeletionTimestamp : option Time
}.

(** [t.IsZero()] on a [*metav1.Time]: nil or the zero instant. *)
Definition IsZero (t : option Time) : bool :=
  match t with
  | None => true
  | Some t => t =? 0
  end.

(** Every API type is its type and object metadata and a body that is
    particular to the type. *)
Record resource (Body : Type) := {
  typeMeta : TypeMeta;
  objectMeta : ObjectMeta;
  body : Body
}.
Arguments typeMeta {Body} _.
Arguments objectMeta {Body} _.
Arguments body {Body} _.

(** [corev1.Secret]. *)
Record SecretBody := {
  Data : gmap string string;
  StringData : gmap string string;
  Type_ : string
}.
Definition Secret := resource SecretBody.
Definition SecretTypeOpaque : string := "Opaque".

(** [capz.AzureCluster]: the fields of the spec the migrator reads. *)
Record AzureClusterSpec := {
  ControlPlaneEndpoint_Host : string;
  NetworkSpec_Vnet_CIDRBlocks : list string
}.
Definition AzureCluster := resource AzureClusterSpec.

(** [release.Release]: the components of the spec. *)
Record ReleaseSpecComponent := { Component_Name : string; Component_Version : string }.
Record ReleaseSpec := { Components : list ReleaseSpecComponent }.
Definition Release := resource ReleaseSpec.

(** The types whose content the migrator never looks into carry their
    specification as text. *)
Definition AzureConfig := resource string.
Definition Cluster := resource string.
Definition MachinePool := resource string.
Definition AzureMachinePool := resource string.
Definition KubeadmControlPlane := resource string.
Definition AzureMachineTemplate := resource string.
Definition KubeadmConfigTemplate := resource string.
Definition MachineDeployment := resource string.

(** The list types: [TypeMeta] of the list and its [Items]. *)
Record listOf (A : Type) := { listTypeMeta : TypeMeta; Items : list A }.
Arguments listTypeMeta {A} _.
Arguments Items {A} _.

(** [client.Object]: a pointer to an object of one of the API types. *)
Inductive Object :=
| SecretPtr (o : Secret)
| AzureConfigPtr (o : AzureConfig)
| ClusterPtr (o : Cluster)
| AzureClusterPtr (o : AzureCluster)
| MachinePoolPtr (o : MachinePool)
| AzureMachinePoolPtr (o : AzureMachinePool)
| ReleasePtr (o : Release)
| KubeadmControlPlanePtr (o : KubeadmControlPlane)
| AzureMachineTemplatePtr (o : AzureMachineTemplate)
| KubeadmConfigTemplatePtr (o : KubeadmConfigTemplate)
| MachineDeploymentPtr (o : MachineDeployment).

(** The values the migrator keeps in its cache: an object or one of the
    two lists it reads whole. *)
Inductive cached :=
| CachedObject (o : Object)
| MachinePoolListPtr (l : listOf MachinePool)
| AzureMachinePoolListPtr (l : listOf AzureMachinePool).

(** The Go type of a cached value as [%T] prints it. *)
Definition typeName (v : cached) : string :=
  match v with
  | CachedObject (SecretPtr _) => "*v1.Secret"
  | CachedObject (AzureConfigPtr _) => "*v1alpha1.AzureConfig"
  | CachedObject (ClusterPtr _) => "*v1alpha3.Cluster"
  | CachedObject (AzureClusterPtr _) => "*v1alpha3.AzureCluster"
  | CachedObject (MachinePoolPtr _) => "*v1alpha3.MachinePool"
  | CachedObject (AzureMachinePoolPtr _) => "*v1alpha3.AzureMachinePool"
  | CachedObject (ReleasePtr _) => "*v1alpha1.Release"
  | CachedObject (KubeadmControlPlanePtr _) => "*v1alpha3.KubeadmControlPlane"
  | CachedObject (AzureMachineTemplatePtr _) => "*v1alpha3.AzureMachineTemplate"
  | CachedObject (KubeadmConfigTemplatePtr _) => "*v1alpha3.KubeadmConfigTemplate"
  | CachedObject (MachineDeploymentPtr _) => "*v1alpha3.MachineDeployment"
  | MachinePoolListPtr _ => "*v1alpha3.MachinePoolList"
  | AzureMachinePoolListPtr _ => "*v1alpha3.AzureMachinePoolList"
  end.

(** [ctrl.ObjectKey], also [types.NamespacedName]. *)
Record ObjectKey := { key_Namespace : string; key_Name : string }.

(** [ctrl.MatchingLabels]. *)
Definition MatchingLabels := gmap string string.

(* ===================================================================== *)
(** * The client interface and command trees *)
(* ===================================================================== *)

(** The calls the two packages make on [ctrl.Client], each with the type
    of its answer.  [Get] and [List] are typed by the object they fill. *)
Inductive clientOp : Type -> Type :=
| GetSecret (key : ObjectKey) : clientOp (result Secret)
| GetCluster (key : ObjectKey) : clientOp (result Cluster)
| GetRelease (key : ObjectKey) : clientOp (result Release)
| ListAzureConfig (sel : MatchingLabels) : clientOp (result (listOf AzureConfig))
| ListCluster (sel : MatchingLabels) : clientOp (result (listOf Cluster))
| ListAzureCluster (sel : MatchingLabels) : clientOp (result (listOf AzureCluster))
| ListMachinePool (sel : MatchingLabels) : clientOp (result (listOf MachinePool))
| ListAzureMachinePool (sel : MatchingLabels) : clientOp (result (listOf AzureMachinePool))
| Create (o : Object) : clientOp (option error).

(** A Go function body that calls the client: it returns, panics, or
    makes a call and goes on with the answer. *)
Inductive prog (R : Type) : Type :=
| Ret (r : R)
| Panic (msg : string)
| Call {X : Type} (op : clientOp X) (k : X -> prog R).
Arguments Ret {R} r.
Arguments Panic {R} msg.
Arguments Call {R X} op k.

Fixpoint bind {A B : Type} (p : prog A) (f : A -> prog B) : prog B :=
  match p with
  | Ret a => f a
  | Panic msg => Panic msg
  | Call op k => Call op (fun x => bind (k x) f)
  end.

Notation "x <- p ;; q" := (bind p (fun x => q))
  (at level 100, p at next level, right associativity).

(** How a call ends: with the results or in a panic. *)
Inductive outcome (R : Type) :=
| Returned (r : R)
| Panicked (msg : string).
Arguments Returned {R} r.
Arguments Panicked {R} msg.

(** An implementation of [ctrl.Client] over a state [S]. *)
Class CtrlClient (S : Type) := call : forall X : Type, clientOp X -> S -> X * S.
Arguments call {S _ X} op s.

Fixpoint run {S : Type} `{CtrlClient S} {R : Type} (p : prog R) (s : S) : outcome R * S :=
  match p with
  | Ret r => (Returned r, s)
  | Panic msg => (Panicked msg, s)
  | Call op k => let '(x, s') := call op s in run (k x) s'
  end.

(** Dereferencing a pointer: a nil pointer panics. *)
Definition deref {A R : Type} (p : option A) (k : A -> prog R) : prog R :=
  match p with
  | Some a => k a
  | None => Panic "runtime error: invalid memory address or nil pointer dereference"
  end.

(* ===================================================================== *)
(** * An in-memory API server *)
(* ===================================================================== *)

Definition objectMetaOf (o : Object) : ObjectMeta :=
  match o with
  | SecretPtr o => objectMeta o
  | AzureConfigPtr o => objectMeta o
  | ClusterPtr o => objectMeta o
  | AzureClusterPtr o => objectMeta o
  | MachinePoolPtr o => objectMeta o
  | AzureMachinePoolPtr o => objectMeta o
  | ReleasePtr o => objectMeta o
  | KubeadmControlPlanePtr o => objectMeta o
  | AzureMachineTemplatePtr o => objectMeta o
  | KubeadmConfigTemplatePtr o => objectMeta o
  | MachineDeploymentPtr o => objectMeta o
  end.

(** The Go type of an object, as a tag. *)
Definition typeTag (o : Object) : nat :=
  match o with
  | SecretPtr _ => 0
  | AzureConfigPtr _ => 1
  | ClusterPtr _ => 2
  | AzureClusterPtr _ => 3
  | MachinePoolPtr _ => 4
  | AzureMachinePoolPtr _ => 5
  | ReleasePtr _ => 6
  | KubeadmControlPlanePtr _ => 7
  | AzureMachineTemplatePtr _ => 8
  | KubeadmConfigTemplatePtr _ => 9
  | MachineDeploymentPtr _ => 10
  end%nat.

Definition asSecret (o : Object) : option Secret :=
  match o with SecretPtr x => Some x | _ => None end.
Definition asAzureConfig (o : Object) : option AzureConfig :=
  match o with AzureConfigPtr x => Some x | _ => None end.
Definition asCluster (o : Object) : option Cluster :=
  match o with ClusterPtr x => Some x | _ => None end.
Definition asAzureCluster (o : Object) : option AzureCluster :=
  match o with AzureClusterPtr x => Some x | _ => None end.
Definition asMachinePool (o : Object) : option MachinePool :=
  match o with MachinePoolPtr x => Some x | _ => None end.
Definition asAzureMachinePool (o : Object) : option AzureMachinePool :=
  match o with AzureMachinePoolPtr x => Some x | _ => None end.
Definition asRelease (o : Object) : option Release :=
  match o with ReleasePtr x => Some x | _ => None end.

Module memserver.

(** The stored objects, oldest first.  No two of them have the same
    type, namespace and name. *)
Definition apiserver := list Object.

Definition hasKey (key : ObjectKey) (meta : ObjectMeta) : bool :=
  (String.eqb (Namespace meta) (key_Namespace key)
   && String.eqb (Name meta) (key_Name key))%bool.

(** A label selector matches when every pair of it is among the labels. *)
Definition matches (sel : MatchingLabels) (meta : ObjectMeta) : bool :=
  forallb (fun kv => bool_decide (Labels meta !! kv.1 = Some kv.2)) (map_to_list sel).

Definition notFound (key : ObjectKey) : error :=
  StatusError StatusReasonNotFound (key_Name key).

Definition alreadyExists (meta : ObjectMeta) : error :=
  StatusError StatusReasonAlreadyExists (Name meta).

Definition get {A : Type} (as_ : Object -> option A) (key : ObjectKey)
           (s : apiserver) : result A :=
  match List.find (fun o => (bool_decide (is_Some (as_ o)) && hasKey key (objectMetaOf o))%bool) s with
  | Some o => match as_ o with Some x => Ok x | None => Err (notFound key) end
  | None => Err (notFound key)
  end.

Definition list_ {A : Type} (as_ : Object -> option A) (kind : string)
           (sel : MatchingLabels) (s : apiserver) : result (listOf A) :=
  Ok {| listTypeMeta := {| Kind := kind; APIVersion := "" |};
        Items := omap as_ (List.filter (fun o => matches sel (objectMetaOf o)) s) |}.

Definition exists_ (o : Object) (s : apiserver) : bool :=
  existsb (fun o' => ((typeTag o' =? typeTag o)%nat
                      && String.eqb (Namespace (objectMetaOf o')) (Namespace (objectMetaOf o))
                      && String.eqb (Name (objectMetaOf o')) (Name (objectMetaOf o)))%bool) s.

Definition create (o : Object) (s : apiserver) : option error * apiserver :=
  if exists_ o s then (Some (alreadyExists (objectMetaOf o)), s)
  else (None, (s ++ [o])%list).

Definition serve (X : Type) (op : clientOp X) (s : apiserver) : X * apiserver :=
  match op in clientOp X return X * apiserver with
  | GetSecret key => (get asSecret key s, s)
  | GetCluster key => (get asCluster key s, s)
  | GetRelease key => (get asRelease key s, s)
  | ListAzureConfig sel => (list_ asAzureConfig "AzureConfigList" sel s, s)
  | ListCluster sel => (list_ asCluster "ClusterList" sel s, s)
  | ListAzureCluster sel => (list_ asAzureCluster "AzureClusterList" sel s, s)
  | ListMachinePool sel => (list_ asMachinePool "MachinePoolList" sel s, s)
  | ListAzureMachinePool sel => (list_ asAzureMachinePool "AzureMachinePoolList" sel s, s)
  | Create o => create o s
  end.

End memserver.

#[export] Instance memClient : CtrlClient memserver.apiserver := memserver.serve.

(* ===================================================================== *)
(** * Templates and YAML *)
(* ===================================================================== *)

(** The template files embedded in the program ([templatesFS]) are not
    part of the sources at hand, and template execution and YAML decoding
    belong to libraries; the migrator is modelled over any of them. *)
Class Templates := {
  Template : Type;
  (** [template.ParseFS(templatesFS, path)] *)
  ParseFS : string -> result Template;
  (** [tmpl.Execute(buf, cfg)]: the bytes written to [buf] *)
  Execute : Template -> gmap string string -> result string;
  (** [yaml.Unmarshal(bytes, obj)], one per type of [obj] *)
  Unmarshal_KubeadmControlPlane : string -> result KubeadmControlPlane;
  Unmarshal_AzureMachineTemplate : string -> result AzureMachineTemplate;
  Unmarshal_KubeadmConfigTemplate : string -> result KubeadmConfigTemplate;
  Unmarshal_MachineDeployment : string -> result MachineDeployment
}.

(* ===================================================================== *)
(** * Package migration: azure_crs.go *)
(* ===================================================================== *)

Module migration.

Definition EncryptionSecret : string := "EncryptionSecret".

(** [capi.ClusterLabelName] and [label.ReleaseVersion]. *)
Definition ClusterLabelName : string := "cluster.x-k8s.io/cluster-name".
Definition ReleaseVersion : string := "release.giantswarm.io/version".

(** Modelled from the spec: the declaration of the struct [azureMigrator]
    is not among the source files.  Section 3 describes the cluster
    identifier, a string, and the source resource cache, a mapping from
    object-kind name to a fetched object; the methods use them as the
    fields [clusterID] and [crs].  The third field they use, the client
    [mcCtrlClient], is the one the command trees are run against. *)
Record azureMigrator := {
  clusterID : string;
  crs : gmap string cached
}.

Definition set_crs (m : azureMigrator) (key : string) (v : cached) : azureMigrator :=
  {| clusterID := clusterID m; crs := <[key := v]> (crs m) |}.

(** [apierrors.IsAlreadyExists(err)] on an error that may be nil. *)
Definition isAlreadyExists (err : option error) : bool :=
  match err with
  | Some e => IsAlreadyExists e
  | None => false
  end.

Definition encryptionConfigTmpl : string := "
kind: EncryptionConfiguration
apiVersion: apiserver.config.k8s.io/v1
resources:
  - resources:
    - secrets
    providers:
    - aescbc:
        keys:
        - name: key1
          secret: %s
    - identity: {}".

(** The type assertion [obj.( *corev1.Secret)]. *)
Definition assertSecret (obj : cached) : option Secret :=
  match obj with
  | CachedObject (SecretPtr s) => Some s
  | _ => None
  end.

(** The type assertion [obj.( *capz.AzureCluster)]. *)
Definition assertAzureCluster (obj : cached) : option AzureCluster :=
  match obj with
  | CachedObject (AzureClusterPtr c) => Some c
  | _ => None
  end.

(** [createEncryptionConfigSecret].  The function declares
    [origEncryptionSecret] and then, inside a block, declares it again
    with [:=] for the result of the type assertion.  The second
    declaration is a variable of the block; the first one is never
    assigned and is still nil where [origEncryptionSecret.Data] reads
    it. *)
Definition createEncryptionConfigSecret (m : azureMigrator) : prog (option error) :=
  let origEncryptionSecret : option Secret := None in
  match crs m !! EncryptionSecret with
  | None => Ret (Some (Mask (Errorf "encryption secret not found" [])))
  | Some obj =>
      match assertSecret obj with
      | None =>
          Ret (Some (Mask (Errorf "can't convert obj (%T) to %T"
                             [typeName obj; "*v1.Secret"])))
      | Some origEncryptionSecret_in_block =>
          deref origEncryptionSecret (fun secret =>
            let renderedConfig :=
              fmt.Sprintf_s encryptionConfigTmpl
                            (default "" (Data (body secret) !! "encryption")) in
            let s : Secret :=
              {| typeMeta := {| Kind := ""; APIVersion := "" |};
                 objectMeta := {| Name := clusterID m +:+ "-k8s-encryption-config";
                                  Namespace := "default";
                                  Labels := ∅;
                                  DeletionTimestamp := None |};
                 body := {| Data := ∅;
                            StringData := {[ "encryption" := renderedConfig ]};
                            Type_ := SecretTypeOpaque |} |} in
            Call (Create (SecretPtr s)) (fun err =>
              if isAlreadyExists err then Ret None
              else match err with
                   | Some e => Ret (Some (Mask e))
                   | None => Ret None
                   end))
      end
  end.

Definition proxyConfig : string := "
apiVersion: kubeproxy.config.k8s.io/v1alpha1
clientConnection:
  kubeconfig: /etc/kubernetes/config/proxy-kubeconfig.yaml
kind: KubeProxyConfiguration
mode: iptables
metricsBindAddress: 0.0.0.0:10249".

Definition createProxyConfigSecret (m : azureMigrator) : prog (option error) :=
  let s : Secret :=
    {| typeMeta := {| Kind := ""; APIVersion := "" |};
       objectMeta := {| Name := clusterID m +:+ "-proxy-config";
                        Namespace := "default";
                        Labels := ∅;
                        DeletionTimestamp := None |};
       body := {| Data := ∅;
                  StringData := {[ "proxy" := proxyConfig ]};
                  Type_ := SecretTypeOpaque |} |} in
  Call (Create (SecretPtr s)) (fun err =>
    if isAlreadyExists err then Ret None
    else match err with
         | Some e => Ret (Some (Mask e))
         | None => Ret None
         end).

(** [getInstallationBaseDomainFromAPIEndpoint]: the loop over [labels]
    at index [i], with [todo] the labels from [i] on. *)
Fixpoint baseDomain_loop (labels : list string) (i : nat) (todo : list string)
  : result string :=
  match todo with
  | [] => Err (Mask (Errorf "can't find domain label 'k8s' from ControlPlaneEndpoint.Host" []))
  | l :: todo' =>
      if String.eqb l "k8s"
      then Ok (strings.Join (drop (i + 1) labels) ".")
      else baseDomain_loop labels (i + 1) todo'
  end.

Definition getInstallationBaseDomainFromAPIEndpoint (apiEndpoint : string) : result string :=
  let labels := strings.Split apiEndpoint "." in
  baseDomain_loop labels 0 labels.

(** [getMasterIPForVNet]: the fourth octet is a [byte], so [ip[3]+4] is
    taken modulo 256. *)
Definition getMasterIPForVNet (vnet : net.IPNet) : prog net.IP :=
  match net.To4 (net.IP_ vnet) with
  | None => Panic "VNET CIDR is IPv6"
  | Some ip =>
      Ret (net.IPv4 (net.at_ ip 0) (net.at_ ip 1) (net.at_ ip 2)
                    (net.byte (net.at_ ip 3 + 4)))
  end.

Section WithLibraries.
Context `{net.IPv6Text} `{Templates}.

Definition getVNETCIDR (m : azureMigrator) (cluster : AzureCluster) : result net.IPNet :=
  match NetworkSpec_Vnet_CIDRBlocks (body cluster) with
  | [] => Err (Mask (Errorf "VNET CIDR not found for %q" [Name (objectMeta cluster)]))
  | block0 :: _ =>
      match net.ParseCIDR block0 with
      | Err err => Err (Mask err)
      | Ok n => Ok n
      end
  end.

Definition getReleaseComponents (m : azureMigrator) (ver : string)
  : prog (result (gmap string string)) :=
  let ver := strings.TrimPrefix ver "v" in
  Call (GetRelease {| key_Namespace := ""; key_Name := ver |}) (fun r =>
    match r with
    | Err err => Ret (Err (Mask err))
    | Ok r =>
        let components :=
          fold_left (fun components c =>
                       <[Component_Name c := Component_Version c]> components)
                    (Components (body r)) (∅ : gmap string string) in
        Ret (Ok components)
    end).

Definition createKubeadmControlPlane (m : azureMigrator) : prog (option error) :=
  match crs m !! "AzureCluster" with
  | None => Ret (Some (Mask (Errorf "AzureCluster not found" [])))
  | Some obj =>
      match assertAzureCluster obj with
      | None =>
          Ret (Some (Mask (Errorf "can't cast obj (%T) to %T"
                             [typeName obj; "*v1alpha3.AzureCluster"])))
      | Some cluster =>
          match ParseFS "templates/kubeadm_controlplane_azure.yaml.tmpl" with
          | Err err => Ret (Some (Mask err))
          | Ok tmpl =>
          match getInstallationBaseDomainFromAPIEndpoint
                  (ControlPlaneEndpoint_Host (body cluster)) with
          | Err err => Ret (Some (Mask err))
          | Ok baseDomain =>
          match getVNETCIDR m cluster with
          | Err err => Ret (Some (Mask err))
          | Ok vnet =>
          rc <- getReleaseComponents m
                  (default "" (Labels (objectMeta cluster) !! ReleaseVersion)) ;;
          match rc with
          | Err err => Ret (Some (Mask err))
          | Ok releaseComponents =>
          let clusterCIDR := net.IPNet_String vnet in
          masterIP <- getMasterIPForVNet vnet ;;
          let cfg : gmap string string :=
            <["ClusterID" := clusterID m]>
            (<["ClusterCIDR" := clusterCIDR]>
            (<["ClusterMasterIP" := net.IP_String masterIP]>
            (<["EtcdVersion" := default "" (releaseComponents !! "etcd")]>
            (<["K8sVersion" := default "" (releaseComponents !! "kubernetes")]>
            (<["InstallationBaseDomain" := baseDomain]> ∅))))) in
          match Execute tmpl cfg with
          | Err err => Ret (Some (Mask err))
          | Ok buf =>
          match Unmarshal_KubeadmControlPlane buf with
          | Err err => Ret (Some (Mask err))
          | Ok kcp =>
          Call (Create (KubeadmControlPlanePtr kcp)) (fun err =>
            if isAlreadyExists err then Ret None
            else match err with
                 | Some e => Ret (Some (Mask e))
                 | None => Ret None
                 end)
          end end
          end
          end end end
      end
  end.

Definition createMasterAzureMachineTemplate (m : azureMigrator) : prog (option error) :=
  match ParseFS "templates/controlplane_azure_machine_template.yaml.tmpl" with
  | Err err => Ret (Some (Mask err))
  | Ok tmpl =>
      let cfg : gmap string string := {[ "ClusterID" := clusterID m ]} in
      match Execute tmpl cfg with
      | Err err => Ret (Some (Mask err))
      | Ok buf =>
          match Unmarshal_AzureMachineTemplate buf with
          | Err err => Ret (Some (Mask err))
          | Ok amt =>
              Call (Create (AzureMachineTemplatePtr amt)) (fun err =>
                if isAlreadyExists err then Ret None
                else match err with
                     | Some e => Ret (Some (Mask e))
                     | None => Ret None
                     end)
          end
      end
  end.

Definition createWorkersKubeadmConfigTemplate (m : azureMigrator) : prog (option error) :=
  match ParseFS "templates/workers_kubeadm_config_template_azure.yaml.tmpl" with
  | Err err => Ret (Some (Mask err))
  | Ok tmpl =>
      let cfg : gmap string string := {[ "ClusterID" := clusterID m ]} in
      match Execute tmpl cfg with
      | Err err => Ret (Some (Mask err))
      | Ok buf =>
          match Unmarshal_KubeadmConfigTemplate buf with
          | Err err => Ret (Some (Mask err))
          | Ok kct =>
              Call (Create (KubeadmConfigTemplatePtr kct)) (fun err =>
                if isAlreadyExists err then Ret None
                else match err with
                     | Some e => Ret (Some (Mask e))
                     | None => Ret None
                     end)
          end
      end
  end.

Definition createWorkersAzureMachineTemplate (m : azureMigrator) : prog (option error) :=
  match ParseFS "templates/workers_azure_machine_template.yaml.tmpl" with
  | Err err => Ret (Some (Mask err))
  | Ok tmpl =>
      let cfg : gmap string string := {[ "ClusterID" := clusterID m ]} in
      match Execute tmpl cfg with
      | Err err => Ret (Some (Mask err))
      | Ok buf =>
          match Unmarshal_AzureMachineTemplate buf with
          | Err err => Ret (Some (Mask err))
          | Ok amt =>
              Call (Create (AzureMachineTemplatePtr amt)) (fun err =>
                if isAlreadyExists err then Ret None
                else match err with
                     | Some e => Ret (Some (Mask e))
                     | None => Ret None
                     end)
          end
      end
  end.

Definition createWorkersMachineDeployment (m : azureMigrator) : prog (option error) :=
  match ParseFS "templates/workers_machine_deployment.yaml.tmpl" with
  | Err err => Ret (Some (Mask err))
  | Ok tmpl =>
      let cfg : gmap string string :=
        <["ClusterID" := clusterID m]> (<["K8sVersion" := "v1.19.9"]> ∅) in
      match Execute tmpl cfg with
      | Err err => Ret (Some (Mask err))
      | Ok buf =>
          match Unmarshal_MachineDeployment buf with
          | Err err => Ret (Some (Mask err))
          | Ok md =>
              Call (Create (MachineDeploymentPtr md)) (fun err =>
                if isAlreadyExists err then Ret None
                else match err with
                     | Some e => Ret (Some (Mask e))
                     | None => Ret None
                     end)
          end
      end
  end.

End WithLibraries.

(** ** The read steps.  Each returns the receiver as it leaves it. *)

Definition readEncryptionSecret (m : azureMigrator) : prog (azureMigrator * option error) :=
  let key := {| key_Namespace := "default"; key_Name := clusterID m +:+ "-encryption" |} in
  Call (GetSecret key) (fun r =>
    match r with
    | Err err => Ret (m, Some (Mask err))
    | Ok obj => Ret (set_crs m EncryptionSecret (CachedObject (SecretPtr obj)), None)
    end).

Definition selector (m : azureMigrator) : MatchingLabels :=
  {[ ClusterLabelName := clusterID m ]}.

Definition readAzureConfig (m : azureMigrator) : prog (azureMigrator * option error) :=
  Call (ListAzureConfig (selector m)) (fun r =>
    match r with
    | Err err => Ret (m, Some (Mask err))
    | Ok objList =>
        if (length (Items objList) =? 0)%nat
        then Ret (m, Some (Mask (Errorf "AzureConfig not found for %q" [clusterID m])))
        else if (1 <? length (Items objList))%nat
        then Ret (m, Some (Mask (Errorf "more than one AzureConfig for cluster ID %q"
                                   [clusterID m])))
        else deref (head (Items objList)) (fun obj =>
               Ret (set_crs m (Kind (typeMeta obj)) (CachedObject (AzureConfigPtr obj)), None))
    end).

Definition readCluster (m : azureMigrator) : prog (azureMigrator * option error) :=
  Call (ListCluster (selector m)) (fun r =>
    match r with
    | Err err => Ret (m, Some (Mask err))
    | Ok objList =>
        if (length (Items objList) =? 0)%nat
        then Ret (m, Some (Mask (Errorf "Cluster not found for %q" [clusterID m])))
        else if (1 <? length (Items objList))%nat
        then Ret (m, Some (Mask (Errorf "more than one Cluster for cluster ID %q"
                                   [clusterID m])))
        else deref (head (Items objList)) (fun obj =>
               Ret (set_crs m (Kind (typeMeta obj)) (CachedObject (ClusterPtr obj)), None))
    end).

Definition readAzureCluster (m : azureMigrator) : prog (azureMigrator * option error) :=
  Call (ListAzureCluster (selector m)) (fun r =>
    match r with
    | Err err => Ret (m, Some (Mask err))
    | Ok objList =>
        if (length (Items objList) =? 0)%nat
        then Ret (m, Some (Mask (Errorf "AzureCluster not found for %q" [clusterID m])))
        else if (1 <? length (Items objList))%nat
        then Ret (m, Some (Mask (Errorf "more than one AzureCluster for cluster ID %q"
                                   [clusterID m])))
        else deref (head (Items objList)) (fun obj =>
               Ret (set_crs m (Kind (typeMeta obj)) (CachedObject (AzureClusterPtr obj)), None))
    end).

Definition readMachinePools (m : azureMigrator) : prog (azureMigrator * option error) :=
  Call (ListMachinePool (selector m)) (fun r =>
    match r with
    | Err err => Ret (m, Some (Mask err))
    | Ok objList =>
        Ret (set_crs m (Kind (listTypeMeta objList)) (MachinePoolListPtr objList), None)
    end).

Definition readAzureMachinePools (m : azureMigrator) : prog (azureMigrator * option error) :=
  Call (ListAzureMachinePool (selector m)) (fun r =>
    match r with
    | Err err => Ret (m, Some (Mask err))
    | Ok objList =>
        Ret (set_crs m (Kind (listTypeMeta objList)) (AzureMachinePoolListPtr objList), None)
    end).

(** ** The two phases *)

Definition writeStep := azureMigrator -> prog (option error).


Fixpoint runWriteSteps (steps : list writeStep) (m : azureMigrator)
  : prog (option error) :=
  match steps with
  | [] => Ret None
  | step :: steps' =>
      err <- step m ;;
      match err with
      | Some err => Ret (Some (Mask err))
      | None => runWriteSteps steps' m
      end
  end.



Section WithLibraries.
Context `{net.IPv6Text} `{Templates}.

(** Modelled from the spec: the write phase of section 4.4, in its order. *)
Definition writeSteps : list writeStep :=
  [createEncryptionConfigSecret; createProxyConfigSecret; createKubeadmControlPlane;
   createMasterAzureMachineTemplate; createWorkersKubeadmConfigTemplate;
   createWorkersAzureMachineTemplate; createWorkersMachineDeployment].

Definition writePhase (m : azureMigrator) : prog (option error) :=
  runWriteSteps writeSteps m.

End WithLibraries.

End migration.

(* ===================================================================== *)
(** * Package controllers: the Cluster reconciler *)
(* ===================================================================== *)

Module controllers.

(** [ctrl.Request] and [ctrl.Result]. *)
Record Request := { NamespacedName : ObjectKey }.
Record Result := { Requeue : bool; RequeueAfter : Duration }.

Definition NamespacedName_String (n : ObjectKey) : string :=
  key_Namespace n +:+ "/" +:+ key_Name n.

(** What the logger received: level, the key-value pairs of the context,
    the error if any, the format and its operands. *)
Record logEntry := {
  log_level : string;
  log_meta : gmap string string;
  log_error : option error;
  log_format : string;
  log_operands : list Duration
}.

(** The reconciler: its loop counter and, for [Log], the entries written
    so far.  The embedded client is the one the command trees are run
    against. *)
Record ClusterReconciler := {
  Log : list logEntry;
  loopSeq : Z
}.

(** [int64] addition wraps around. *)
Definition int64 (n : Z) : Z := (n + 2 ^ 63) mod 2 ^ 64 - 2 ^ 63.

Definition logf (r : ClusterReconciler) (e : logEntry) : ClusterReconciler :=
  {| Log := (Log r ++ [e])%list; loopSeq := loopSeq r |}.

Definition handler :=
  ClusterReconciler -> gmap string string -> Cluster ->
  prog (ClusterReconciler * (Result * option error)).

Definition reconcile : handler := fun r ctx cluster =>
  let r := logf r {| log_level := "debug"; log_meta := ctx; log_error := None;
                     log_format := "calling reconcile"; log_operands := [] |} in
  Ret (r, ({| Requeue := false; RequeueAfter := 0 |}, None)).

Definition reconcileDelete : handler := fun r ctx cluster =>
  let r := logf r {| log_level := "debug"; log_meta := ctx; log_error := None;
                     log_format := "calling reconcileDelete"; log_operands := [] |} in
  Ret (r, ({| Requeue := false; RequeueAfter := 0 |}, None)).

(** [atomic.AddInt64(&r.loopSeq, 1)]: the reconciler with its counter
    advanced. *)
Definition nextLoop (r : ClusterReconciler) : ClusterReconciler :=
  {| Log := Log r; loopSeq := int64 (loopSeq r + 1) |}.

(** The key-value pairs put in the context, once the counter is advanced. *)
Definition loggerMeta (r : ClusterReconciler) (req : Request) : gmap string string :=
  <["controller" := "cluster"]>
  (<["object" := NamespacedName_String (NamespacedName req)]>
  (<["loop" := fmt.FormatInt (loopSeq r)]> ∅)).

(** The entry [r.Log.Errorf] writes when a handler fails. *)
Definition failedToReconcile (ctx : gmap string string) (err : error)
           (requeueAfter : Duration) : logEntry :=
  {| log_level := "error"; log_meta := ctx; log_error := Some err;
     log_format := "failed to reconcile, requeuing after %#q";
     log_operands := [requeueAfter] |}.

Section Reconcile.
(** The body of [Reconcile] over the two handlers it dispatches to. *)
Variables reconcile_ reconcileDelete_ : handler.

Definition ReconcileWith (r : ClusterReconciler) (req : Request)
  : prog (ClusterReconciler * (Result * option error)) :=
  let r := nextLoop r in
  let ctx := loggerMeta r req in
  Call (GetCluster (NamespacedName req)) (fun got =>
    match got with
    | Err err => Ret (r, ({| Requeue := false; RequeueAfter := 0 |}, Some (Mask err)))
    | Ok cluster =>
        if negb (IsZero (DeletionTimestamp (objectMeta cluster))) then
          x <- reconcileDelete_ r ctx cluster ;;
          match x with
          | (r, (res, Some err)) =>
              let requeueAfter := 30 * Second in
              let r := logf r (failedToReconcile ctx err requeueAfter) in
              Ret (r, ({| Requeue := false; RequeueAfter := requeueAfter |}, None))
          | (r, (res, None)) => Ret (r, (res, None))
          end
        else
          x <- reconcile_ r ctx cluster ;;
          match x with
          | (r, (res, Some err)) =>
              let requeueAfter := 30 * Second in
              let r := logf r (failedToReconcile ctx err requeueAfter) in
              Ret (r, ({| Requeue := false; RequeueAfter := requeueAfter |}, None))
          | (r, (res, None)) => Ret (r, (res, None))
          end
    end).

End Reconcile.

(** [ClusterReconciler.Reconcile]. *)
Definition Reconcile : ClusterReconciler -> Request ->
                       prog (ClusterReconciler * (Result * option error)) :=
  ReconcileWith reconcile reconcileDelete.

End controllers.

(* ===================================================================== *)
(** * Notions used in the statements *)
(* ===================================================================== *)

(** [everyCreate P p]: at every [Create] call the tree [p] can reach,
    whatever the client answered before, the object created and the
    continuation of the call satisfy [P]. *)
Fixpoint everyCreate {R : Type} (P : Object -> (option error -> prog R) -> Prop)
         (p : prog R) : Prop :=
  match p with
  | Ret _ => True
  | Panic _ => True
  | Call op k =>
      match op in clientOp X return (X -> prog R) -> Prop with
      | Create o => fun k => P o k
      | _ => fun _ => True
      end k
      /\ forall x, everyCreate P (k x)
  end.

(** The number of [Create] calls on the path the client [s] drives the
    tree along. *)
Fixpoint createCalls {S : Type} `{CtrlClient S} {R : Type} (p : prog R) (s : S) : nat :=
  match p with
  | Ret _ => 0%nat
  | Panic _ => 0%nat
  | Call op k =>
      let '(x, s') := call op s in
      ((match op with Create _ => 1 | _ => 0 end) + createCalls (k x) s')%nat
  end.

(** A write step or phase succeeded: it returned, and returned nil. *)
Definition succeeded {S : Type} (o : outcome (option error) * S) : bool :=
  match o.1 with
  | Returned None => true
  | _ => false
  end.



(** What the specification asks of a [Create] call in a write step: the
    step returns nil when the call succeeded or failed with an
    already-exists error, and returns the error, masked, when the call
    failed with any other error. *)
Definition idempotentCreate (o : Object) (k : option error -> prog (option error)) : Prop :=
  k None = Ret None
  /\ (forall e, IsAlreadyExists e = true -> k (Some e) = Ret None)
  /\ (forall e, IsAlreadyExists e = false -> k (Some e) = Ret (Some (Mask e))).

(** A byte value. *)
Definition is_byte (x : Z) : Prop := 0 <= x < 256.


(* ===================================================================== *)
(** * Concrete clusters, used to evaluate the code *)
(* ===================================================================== *)

Module fixtures.
Import migration controllers.

(** No IPv6 text is understood. *)
Definition noIPv6 : net.IPv6Text :=
  {| net.parseIPv6 := fun _ => None; net.ip6String := fun _ => "" |}.

(** Templates that render to the path and the cluster ID, and a decoder
    that names the object after the rendered text. *)
Definition named (text : string) : resource string :=
  {| typeMeta := {| Kind := ""; APIVersion := "" |};
     objectMeta := {| Name := text; Namespace := "default"; Labels := ∅;
                      DeletionTimestamp := None |};
     body := text |}.

Definition plainTemplates : Templates :=
  {| Template := string;
     ParseFS := fun path => Ok path;
     Execute := fun tmpl cfg => Ok (default "" (cfg !! "ClusterID") +:+ ":" +:+ tmpl);
     Unmarshal_KubeadmControlPlane := fun buf => Ok (named buf);
     Unmarshal_AzureMachineTemplate := fun buf => Ok (named buf);
     Unmarshal_KubeadmConfigTemplate := fun buf => Ok (named buf);
     Unmarshal_MachineDeployment := fun buf => Ok (named buf) |}.

Definition meta (name : string) (labels : gmap string string) (deleted : option Time)
  : ObjectMeta :=
  {| Name := name; Namespace := "default"; Labels := labels; DeletionTimestamp := deleted |}.

Definition ofCluster (id : string) : gmap string string := {[ ClusterLabelName := id ]}.

(** The encryption secret of cluster abc123. *)
Definition encryptionSecret : Secret :=
  {| typeMeta := {| Kind := "Secret"; APIVersion := "v1" |};
     objectMeta := meta "abc123-encryption" ∅ None;
     body := {| Data := {[ "encryption" := "c2VjcmV0LWtleQ==" ]};
                StringData := ∅; Type_ := SecretTypeOpaque |} |}.

Definition azureCluster (kind : string) : AzureCluster :=
  {| typeMeta := {| Kind := kind; APIVersion := "infrastructure.cluster.x-k8s.io/v1alpha3" |};
     objectMeta := meta "abc123"
                        (<[ReleaseVersion := "v14.1.0"]> (ofCluster "abc123")) None;
     body := {| ControlPlaneEndpoint_Host := "api.abc123.k8s.example.installation.com";
                NetworkSpec_Vnet_CIDRBlocks := ["10.0.0.0/16"] |} |}.

Definition cluster (name kind : string) (deleted : option Time) : Cluster :=
  {| typeMeta := {| Kind := kind; APIVersion := "cluster.x-k8s.io/v1alpha3" |};
     objectMeta := meta name (ofCluster "abc123") deleted;
     body := "" |}.

Definition azureConfig (kind : string) : AzureConfig :=
  {| typeMeta := {| Kind := kind; APIVersion := "provider.giantswarm.io/v1alpha1" |};
     objectMeta := meta "abc123" (ofCluster "abc123") None;
     body := "" |}.

Definition release : Release :=
  {| typeMeta := {| Kind := "Release"; APIVersion := "release.giantswarm.io/v1alpha1" |};
     objectMeta := {| Name := "14.1.0"; Namespace := ""; Labels := ∅;
                      DeletionTimestamp := None |};
     body := {| Components := [ {| Component_Name := "etcd"; Component_Version := "3.4.14" |};
                                {| Component_Name := "kubernetes"; Component_Version := "1.19.9" |} ] |} |}.

(** A management cluster that holds the legacy objects of abc123, each
    with its kind filled in. *)
Definition legacy : memserver.apiserver :=
  [SecretPtr encryptionSecret; AzureConfigPtr (azureConfig "AzureConfig");
   ClusterPtr (cluster "abc123" "Cluster" None);
   AzureClusterPtr (azureCluster "AzureCluster"); ReleasePtr release].

(** The same objects as a typed client decodes them: with the kind left
    empty. *)
Definition legacyUntyped : memserver.apiserver :=
  [SecretPtr encryptionSecret; AzureConfigPtr (azureConfig "");
   ClusterPtr (cluster "abc123" "" None);
   AzureClusterPtr (azureCluster ""); ReleasePtr release].

(** Two Cluster objects carry the label of abc123. *)
Definition twoClusters : memserver.apiserver :=
  [ClusterPtr (cluster "abc123" "Cluster" None); ClusterPtr (cluster "abc123-b" "Cluster" None)].

(** The target secret of the first write step is already there. *)
Definition encryptionConfigSecret : Secret :=
  {| typeMeta := {| Kind := "Secret"; APIVersion := "v1" |};
     objectMeta := meta "abc123-k8s-encryption-config" ∅ None;
     body := {| Data := ∅; StringData := ∅; Type_ := SecretTypeOpaque |} |}.

Definition migrated : memserver.apiserver := (legacy ++ [SecretPtr encryptionConfigSecret])%list.

(** A migrator for abc123 before the read phase, and one whose cache
    holds the encryption secret and the AzureCluster. *)
Definition fresh : azureMigrator := {| clusterID := "abc123"; crs := ∅ |}.

Definition loaded : azureMigrator :=
  {| clusterID := "abc123";
     crs := <[EncryptionSecret := CachedObject (SecretPtr encryptionSecret)]>
            (<["AzureCluster" := CachedObject (AzureClusterPtr (azureCluster "AzureCluster"))]> ∅) |}.

(** A client whose API server refuses every write and every read. *)
Definition unavailable : error :=
  StatusError StatusReasonInternalError "the server is currently unable to handle the request".

Definition outOfService : CtrlClient unit := fun X op s =>
  match op in clientOp X return X * unit with
  | GetSecret _ => (Err unavailable, s)
  | GetCluster _ => (Err unavailable, s)
  | GetRelease _ => (Err unavailable, s)
  | ListAzureConfig _ => (Err unavailable, s)
  | ListCluster _ => (Err unavailable, s)
  | ListAzureCluster _ => (Err unavailable, s)
  | ListMachinePool _ => (Err unavailable, s)
  | ListAzureMachinePool _ => (Err unavailable, s)
  | Create _ => (Some unavailable, s)
  end.

(** A reconciler that has not run yet, a request, and a handler that
    fails. *)
Definition reconciler : ClusterReconciler := {| Log := []; loopSeq := 0 |}.

Definition request : Request :=
  {| NamespacedName := {| key_Namespace := "default"; key_Name := "abc123" |} |}.

Definition failing : handler := fun r ctx cluster =>
  Ret (r, ({| Requeue := false; RequeueAfter := 0 |}, Some (OtherError "vault is sealed"))).

End fixtures.

(* ===================================================================== *)
(** * Notions and clusters for the further properties *)
(* ===================================================================== *)

(** [s'] is a later state of the in-memory API server [s]: objects were
    created, none of them a Release. *)
Definition laterState (s s' : memserver.apiserver) : Prop :=
  exists created, s' = (s ++ created)%list /\ Forall (fun o => asRelease o = None) created.

(** The version of the last component of [components] named [name]. *)
Definition lastVersion (components : list ReleaseSpecComponent) (name : string)
  : option string :=
  Component_Version <$> last (filter (fun c => Component_Name c = name) components).

(** A write step settles on the in-memory API server: when it returns nil
    the server is in a later state, and from then on, in every later state,
    the step returns nil again and leaves the server as it is. *)
Definition settles (step : migration.writeStep) : Prop :=
  forall (m : migration.azureMigrator) (s s1 : memserver.apiserver),
    run (step m) s = (Returned None, s1) ->
    laterState s s1
    /\ forall s2, laterState s1 s2 -> run (step m) s2 = (Returned None, s2).


Module fixtures6.
Import migration.

(** IPv6 text that understands one address, fd00::. *)
Definition ula : net.IP := 253 :: repeat 0 15.

Definition ulaText : net.IPv6Text :=
  {| net.parseIPv6 := fun s => if String.eqb s "fd00::" then Some ula else None;
     net.ip6String := fun _ => "fd00::" |}.

(** The AzureCluster of abc123 with an IPv6 VNet. *)
Definition azureCluster6 : AzureCluster :=
  {| typeMeta := {| Kind := "AzureCluster";
                    APIVersion := "infrastructure.cluster.x-k8s.io/v1alpha3" |};
     objectMeta := fixtures.meta "abc123"
                     (<[ReleaseVersion := "v14.1.0"]> (fixtures.ofCluster "abc123")) None;
     body := {| ControlPlaneEndpoint_Host := "api.abc123.k8s.example.installation.com";
                NetworkSpec_Vnet_CIDRBlocks := ["fd00::/48"] |} |}.

Definition loaded6 : azureMigrator :=
  {| clusterID := "abc123";
     crs := <["AzureCluster" := CachedObject (AzureClusterPtr azureCluster6)]> ∅ |}.

(** A release that names etcd twice. *)
Definition releaseTwice : Release :=
  {| typeMeta := {| Kind := "Release"; APIVersion := "release.giantswarm.io/v1alpha1" |};
     objectMeta := {| Name := "14.1.0"; Namespace := ""; Labels := ∅;
                      DeletionTimestamp := None |};
     body := {| Components := [ {| Component_Name := "etcd"; Component_Version := "3.4.13" |};
                                {| Component_Name := "kubernetes"; Component_Version := "1.19.9" |};
                                {| Component_Name := "etcd"; Component_Version := "3.4.14" |} ] |} |}.

(** A handler that asks to be called again in five seconds. *)
Definition requeuing : controllers.handler := fun r ctx cluster =>
  Ret (r, ({| controllers.Requeue := true; controllers.RequeueAfter := 5 * Second |}, None)).

End fixtures6.

(* ===================================================================== *)
(** * Properties of the field derivation functions *)
(* ===================================================================== *)

Section BaseDomain.
Import migration.

(** The loop stops at the first label equal to k8s and returns the
    labels after it. *)
Lemma baseDomain_loop_found (labels done before after : list string) :
  labels = (done ++ before ++ "k8s" :: after)%list ->
  "k8s" ∉ before ->
  baseDomain_loop labels (length done) (before ++ "k8s" :: after)%list
  = Ok (strings.Join after ".").
Proof.
  revert done. induction before as [|l before IH]; intros done Hlabels Hnotin.
  - cbn [app baseDomain_loop]. rewrite String.eqb_refl.
    rewrite Hlabels. cbn [app].
    replace (done ++ "k8s" :: after)%list with ((done ++ ["k8s"]) ++ after)%list
      by (rewrite <- app_assoc; reflexivity).
    rewrite drop_app_length'; [reflexivity|].
    rewrite length_app. reflexivity.
  - cbn [app baseDomain_loop].
    destruct (String.eqb_spec l "k8s") as [->|_].
    + exfalso. apply Hnotin. left.
    + replace (length done + 1)%nat with (length (done ++ [l])%list)
        by (rewrite length_app; reflexivity).
      apply IH.
      * rewrite Hlabels. by rewrite <- app_assoc.
      * intros Hin. apply Hnotin. by right.
Qed.

(** Without such a label the loop ends in the error. *)
Lemma baseDomain_loop_missing (labels todo : list string) (i : nat) :
  "k8s" ∉ todo ->
  baseDomain_loop labels i todo
  = Err (Mask (Errorf "can't find domain label 'k8s' from ControlPlaneEndpoint.Host" [])).
Proof.
  revert i. induction todo as [|l todo IH]; intros i Hnotin; [reflexivity|].
  cbn [baseDomain_loop].
  destruct (String.eqb_spec l "k8s") as [->|_].
  - exfalso. apply Hnotin. left.
  - apply IH. intros Hin. apply Hnotin. by right.
Qed.

(** Joining the labels of a host with dots gives the host back: the
    labels are the text between the dots. *)
Lemma Join_Split (s : string) : strings.Join (strings.Split s ".") "." = s.
Proof.
  unfold strings.Join. induction s as [|c s IH]; [reflexivity|].
  cbn [strings.Split]. destruct (Ascii.eqb_spec c ".") as [->|Hc].
  - destruct (strings.Split s ".") as [|f fs] eqn:Hs.
    + destruct s; cbn in Hs; [discriminate|].
      destruct (Ascii.eqb _ _); [discriminate|].
      destruct (strings.Split s "."); discriminate.
    + cbn [String.concat]. cbn [String.concat] in IH. by rewrite IH.
  - destruct (strings.Split s ".") as [|f fs] eqn:Hs.
    + destruct s; cbn in Hs; [discriminate|].
      destruct (Ascii.eqb _ _); [discriminate|].
      destruct (strings.Split s "."); discriminate.
    + cbn [String.concat] in *. destruct fs; cbn [append]; by rewrite <- IH.
Qed.

(** C5. For every endpoint host that has a dot-separated label equal to
    k8s, [getInstallationBaseDomainFromAPIEndpoint] returns, with no
    error, the labels after the first such label joined by dots; for
    every host without such a label it returns an error; the host
    api.abc123.k8s.example.installation.com gives
    example.installation.com. *)
Theorem getInstallationBaseDomain_after_k8s :
  (forall host before after,
      strings.Split host "." = (before ++ "k8s" :: after)%list ->
      "k8s" ∉ before ->
      getInstallationBaseDomainFromAPIEndpoint host = Ok (strings.Join after "."))
  /\ (forall host,
         "k8s" ∈ strings.Split host "." ->
         exists before after,
           strings.Split host "." = (before ++ "k8s" :: after)%list
           /\ getInstallationBaseDomainFromAPIEndpoint host = Ok (strings.Join after "."))
  /\ (forall host,
         "k8s" ∉ strings.Split host "." ->
         exists err, getInstallationBaseDomainFromAPIEndpoint host = Err err)
  /\ getInstallationBaseDomainFromAPIEndpoint "api.abc123.k8s.example.installation.com"
     = Ok "example.installation.com".
Proof.
  assert (Hfound : forall host before after,
             strings.Split host "." = (before ++ "k8s" :: after)%list ->
             "k8s" ∉ before ->
             getInstallationBaseDomainFromAPIEndpoint host = Ok (strings.Join after ".")).
  { intros host before after Hsplit Hnotin.
    unfold getInstallationBaseDomainFromAPIEndpoint.
    rewrite Hsplit at 2.
    apply (baseDomain_loop_found _ [] before after); [exact Hsplit | exact Hnotin]. }
  split; [exact Hfound|]. split; [|split].
  - intros host Hin.
    apply list_elem_of_split_l in Hin as (before & after & Hsplit & Hnotin).
    exists before, after. split; [exact Hsplit|]. by apply (Hfound host before after).
  - intros host Hnotin. eexists.
    unfold getInstallationBaseDomainFromAPIEndpoint.
    by apply baseDomain_loop_missing.
  - reflexivity.
Qed.

Lemma getInstallationBaseDomain_after_k8s_witness :
  getInstallationBaseDomainFromAPIEndpoint "api.k8s.example.com" = Ok "example.com"
  /\ exists err, getInstallationBaseDomainFromAPIEndpoint "api.example.com" = Err err.
Proof.
  destruct getInstallationBaseDomain_after_k8s as (Hfound & _ & Hmissing & _).
  split.
  - apply (Hfound "api.k8s.example.com" ["api"] ["example"; "com"]).
    + reflexivity.
    + intros Hin. apply list_elem_of_In in Hin. cbn in Hin.
      destruct Hin as [Hin|[]]. discriminate Hin.
  - apply (Hmissing "api.example.com").
    intros Hin. apply list_elem_of_In in Hin. cbn in Hin.
    destruct Hin as [Hin|[Hin|[Hin|[]]]]; discriminate Hin.
Defined.

End BaseDomain.

Section MasterIP.
Import migration.
Context `{net.IPv6Text}.

Lemma land_is_byte (x m : Z) : is_byte x -> is_byte (Z.land x m).
Proof.
  unfold is_byte. intros Hx.
  assert (Hones : x = Z.land x (Z.ones 8)).
  { rewrite Z.land_ones by lia. change (2 ^ 8) with 256. by rewrite Z.mod_small. }
  rewrite Hones, <- Z.land_assoc, (Z.land_comm (Z.ones 8) m), Z.land_assoc.
  rewrite Z.land_ones by lia. change (2 ^ 8) with 256.
  apply Z.mod_pos_bound. lia.
Qed.

(** The octets [parseIPv4] reads are [todo] bytes appended to [p]. *)
Lemma parseIPv4_loop_bytes (todo : nat) :
  forall i s p p' rest,
    net.parseIPv4_loop todo i s p = Some (p', rest) ->
    exists q, p' = (p ++ q)%list /\ length q = todo /\ Forall is_byte q.
Proof.
  induction todo as [|todo IH]; intros i s p p' rest Hloop.
  - cbn in Hloop. injection Hloop as <- _. exists []. by rewrite app_nil_r.
  - cbn [net.parseIPv4_loop] in Hloop.
    destruct (String.length s =? 0)%nat; [discriminate|].
    destruct (if (0 <? i)%nat then _ else _) as [s1|]; [|discriminate].
    destruct (net.dtoi s1) as [[[n c] ok] rest1].
    destruct (negb ok || (255 <? n))%bool; [discriminate|].
    destruct ((1 <? c)%nat && net.first_is s1 "0")%bool; [discriminate|].
    apply IH in Hloop as (q & -> & Hlen & Hbytes).
    exists (net.byte n :: q). split; [by rewrite <- app_assoc|]. split.
    + cbn. by rewrite Hlen.
    + constructor; [|exact Hbytes]. unfold is_byte, net.byte.
      apply Z.mod_pos_bound. lia.
Qed.

(** An address [parseIPv4] accepts is the 16-byte form of four bytes. *)
Lemma parseIPv4_form (addr : string) (ip : net.IP) :
  net.parseIPv4 addr = Some ip ->
  exists a b c d,
    ip = net.IPv4 a b c d /\ is_byte a /\ is_byte b /\ is_byte c /\ is_byte d.
Proof.
  unfold net.parseIPv4. intros Hparse.
  destruct (net.parseIPv4_loop net.IPv4len 0 addr []) as [[p rest]|] eqn:Hloop;
    [|discriminate].
  destruct (String.length rest =? 0)%nat; [|discriminate].
  injection Hparse as <-.
  apply parseIPv4_loop_bytes in Hloop as (q & -> & Hlen & Hbytes).
  destruct q as [|a [|b [|c [|d [|]]]]]; try discriminate Hlen.
  exists a, b, c, d. split; [reflexivity|].
  inversion Hbytes as [|? ? Ha Hb']; subst.
  inversion Hb' as [|? ? Hb Hc']; subst.
  inversion Hc' as [|? ? Hc Hd']; subst.
  inversion Hd' as [|? ? Hd _]; subst. done.
Qed.



(** On a four-byte network address the master IP is the address with 4
    added to the fourth octet in 8 bits. *)
Lemma getMasterIPForVNet_4 (vnet : net.IPNet) (a b c d : Z) :
  net.To4 (net.IP_ vnet) = Some [a; b; c; d] ->
  getMasterIPForVNet vnet = Ret (net.IPv4 a b c ((d + 4) mod 256)).
Proof. unfold getMasterIPForVNet. by intros ->. Qed.



(** C10. For every IPv4 network whose address has a fourth octet above
    251, [getMasterIPForVNet] returns and does not panic; the addition is
    done in 8 bits, so the fourth octet of the result is the octet plus 4
    minus 256, a value below 4 and not the octet plus 4; the network
    address 10.0.0.252 gives the master IP 10.0.0.0. *)
Theorem getMasterIPForVNet_wraps_around :
  (forall (vnet : net.IPNet) (a b c d : Z),
      net.To4 (net.IP_ vnet) = Some [a; b; c; d] ->
      251 < d < 256 ->
      getMasterIPForVNet vnet = Ret (net.IPv4 a b c (d + 4 - 256))
      /\ 0 <= d + 4 - 256 < 4
      /\ d + 4 - 256 <> d + 4)
  /\ getMasterIPForVNet {| net.IP_ := [10; 0; 0; 252]; net.Mask_ := [255; 255; 255; 252] |}
     = Ret (net.IPv4 10 0 0 0)
  /\ net.IP_String (net.IPv4 10 0 0 0) = "10.0.0.0".
Proof.
  split; [|split; reflexivity].
  intros vnet a b c d Hto4 Hd.
  rewrite (getMasterIPForVNet_4 vnet a b c d Hto4).
  replace ((d + 4) mod 256) with (d + 4 - 256).
  - repeat split; lia.
  - symmetry. rewrite <- (Z.mod_small (d + 4 - 256) 256) by lia.
    rewrite <- (Z_mod_plus_full (d + 4 - 256) 1 256). f_equal. lia.
Qed.

End MasterIP.


Lemma getMasterIPForVNet_wraps_around_witness :
  migration.getMasterIPForVNet {| net.IP_ := net.IPv4 192 168 7 255; net.Mask_ := [255; 255; 255; 255] |}
  = Ret (net.IPv4 192 168 7 3).
Proof.
  apply (proj1 (@getMasterIPForVNet_wraps_around fixtures.noIPv6)
               {| net.IP_ := net.IPv4 192 168 7 255; net.Mask_ := [255; 255; 255; 255] |}
               192 168 7 255).
  - reflexivity.
  - lia.
Defined.

(* ===================================================================== *)
(** * Running command trees *)
(* ===================================================================== *)

Lemma run_bind {S : Type} `{CtrlClient S} {A B : Type} (p : prog A) (f : A -> prog B) (s : S) :
  run (bind p f) s
  = match run p s with
    | (Returned a, s') => run (f a) s'
    | (Panicked msg, s') => (Panicked msg, s')
    end.
Proof.
  revert s. induction p as [a|msg|X op k IH]; intros s; cbn; try reflexivity.
  destruct (call op s) as [x s']. apply IH.
Qed.

(* ===================================================================== *)
(** * The write steps *)
(* ===================================================================== *)

Section WriteSteps.
Import migration.
Context `{net.IPv6Text} `{Templates}.

(** With a secret in the cache under the key, the first write step reads
    the variable that was never assigned and panics, before any call on
    the client. *)
Lemma createEncryptionConfigSecret_nil_dereference (m : azureMigrator) (secret : Secret) :
  crs m !! EncryptionSecret = Some (CachedObject (SecretPtr secret)) ->
  createEncryptionConfigSecret m
  = Panic "runtime error: invalid memory address or nil pointer dereference".
Proof. unfold createEncryptionConfigSecret. by intros ->. Qed.

(** Whatever the cache holds, the first write step never returns nil and
    never calls the client. *)
Lemma createEncryptionConfigSecret_never_succeeds (m : azureMigrator) :
  (exists msg, createEncryptionConfigSecret m = Panic msg)
  \/ (exists err, createEncryptionConfigSecret m = Ret (Some err)).
Proof.
  unfold createEncryptionConfigSecret.
  destruct (crs m !! EncryptionSecret) as [obj|]; [|right; eauto].
  destruct (assertSecret obj); [left|right]; eauto.
Qed.

(** So the write phase never succeeds, against any client in any state. *)
Lemma writePhase_never_succeeds {S : Type} `{CtrlClient S} (m : azureMigrator) (s : S) :
  succeeded (run (writePhase m) s) = false.
Proof.
  unfold writePhase, writeSteps. cbn [runWriteSteps]. rewrite run_bind.
  destruct (createEncryptionConfigSecret_never_succeeds m) as [[msg ->]|[err ->]];
    reflexivity.
Qed.

Ltac policy :=
  repeat first
    [ progress cbn
    | match goal with
      | |- True => exact I
      | |- _ /\ _ => split
      | |- forall _, _ => intro
      | |- context [match ?x with _ => _ end] => destruct x eqn:?
      | Hx : ?x = _ |- context [?x] => rewrite Hx
      | |- _ = _ => reflexivity
      | Hx : _ = _ |- _ => discriminate Hx
      end ].

Lemma createEncryptionConfigSecret_policy (m : azureMigrator) :
  everyCreate idempotentCreate (createEncryptionConfigSecret m).
Proof.
  destruct (createEncryptionConfigSecret_never_succeeds m) as [[msg ->]|[err ->]];
    exact I.
Qed.

Lemma createProxyConfigSecret_policy (m : azureMigrator) :
  everyCreate idempotentCreate (createProxyConfigSecret m).
Proof. unfold createProxyConfigSecret, idempotentCreate, isAlreadyExists. policy. Qed.

Lemma createKubeadmControlPlane_policy (m : azureMigrator) :
  everyCreate idempotentCreate (createKubeadmControlPlane m).
Proof.
  unfold createKubeadmControlPlane, getReleaseComponents, getMasterIPForVNet,
    idempotentCreate, isAlreadyExists.
  policy.
Qed.

Lemma createMasterAzureMachineTemplate_policy (m : azureMigrator) :
  everyCreate idempotentCreate (createMasterAzureMachineTemplate m).
Proof. unfold createMasterAzureMachineTemplate, idempotentCreate, isAlreadyExists. policy. Qed.

Lemma createWorkersKubeadmConfigTemplate_policy (m : azureMigrator) :
  everyCreate idempotentCreate (createWorkersKubeadmConfigTemplate m).
Proof. unfold createWorkersKubeadmConfigTemplate, idempotentCreate, isAlreadyExists. policy. Qed.

Lemma createWorkersAzureMachineTemplate_policy (m : azureMigrator) :
  everyCreate idempotentCreate (createWorkersAzureMachineTemplate m).
Proof. unfold createWorkersAzureMachineTemplate, idempotentCreate, isAlreadyExists. policy. Qed.

Lemma createWorkersMachineDeployment_policy (m : azureMigrator) :
  everyCreate idempotentCreate (createWorkersMachineDeployment m).
Proof. unfold createWorkersMachineDeployment, idempotentCreate, isAlreadyExists. policy. Qed.

(** A step that fails ends the sequence: the error is masked and returned,
    and the client is left in the state the failing step left it in. *)
Lemma runWriteSteps_abort {S : Type} `{CtrlClient S} (m : azureMigrator)
      (before : list writeStep) (step : writeStep) (after : list writeStep)
      (s s1 s2 : S) (e : error) :
  run (runWriteSteps before m) s = (Returned None, s1) ->
  run (step m) s1 = (Returned (Some e), s2) ->
  run (runWriteSteps (before ++ step :: after)%list m) s = (Returned (Some (Mask e)), s2).
Proof.
  revert s. induction before as [|first before IH]; intros s Hbefore Hstep.
  - cbn in Hbefore. injection Hbefore as ->.
    cbn [app runWriteSteps]. rewrite run_bind, Hstep. reflexivity.
  - cbn [app runWriteSteps] in *. rewrite run_bind in *.
    destruct (run (first m) s) as [[[err|]|msg] s'].
    + cbn in Hbefore. discriminate Hbefore.
    + by apply IH.
    + discriminate Hbefore.
Qed.

(** C7. In every write step of the migrator, wherever the step calls
    [Create]: when the call fails with an already-exists error the step
    returns nil; when it fails with any other error the step returns that
    error, under a mask that keeps its cause; and a step that returns an
    error ends the write sequence, no later step being run. *)
Theorem write_steps_fail_fast :
  (forall (m : azureMigrator) (step : writeStep),
      In step writeSteps -> everyCreate idempotentCreate (step m))
  /\ (forall e : error, Cause (Mask e) = Cause e)
  /\ (forall (S : Type) (client : CtrlClient S) (m : azureMigrator)
             (before : list writeStep) (step : writeStep) (after : list writeStep)
             (s s1 s2 : S) (e : error),
         run (runWriteSteps before m) s = (Returned None, s1) ->
         run (step m) s1 = (Returned (Some e), s2) ->
         run (runWriteSteps (before ++ step :: after)%list m) s
         = (Returned (Some (Mask e)), s2)).
Proof.
  split; [|split].
  - intros m step Hin. unfold writeSteps in Hin. cbn [In] in Hin.
    destruct Hin as [<-|[<-|[<-|[<-|[<-|[<-|[<-|[]]]]]]]].
    + apply createEncryptionConfigSecret_policy.
    + apply createProxyConfigSecret_policy.
    + apply createKubeadmControlPlane_policy.
    + apply createMasterAzureMachineTemplate_policy.
    + apply createWorkersKubeadmConfigTemplate_policy.
    + apply createWorkersAzureMachineTemplate_policy.
    + apply createWorkersMachineDeployment_policy.
  - reflexivity.
  - intros S client m before step after s s1 s2 e. apply runWriteSteps_abort.
Qed.

End WriteSteps.

Lemma write_steps_fail_fast_witness :
  everyCreate idempotentCreate (migration.createProxyConfigSecret fixtures.fresh)
  /\ @run unit fixtures.outOfService _
          (migration.runWriteSteps
             ([] ++ migration.createProxyConfigSecret
                 :: [@migration.createMasterAzureMachineTemplate fixtures.plainTemplates])%list
             fixtures.fresh) tt
     = (Returned (Some (Mask (Mask fixtures.unavailable))), tt)
  /\ run (migration.runWriteSteps
            ([migration.createProxyConfigSecret]
               ++ @migration.createKubeadmControlPlane fixtures.noIPv6 fixtures.plainTemplates
               :: [@migration.createMasterAzureMachineTemplate fixtures.plainTemplates])%list
            fixtures.fresh) ([] : memserver.apiserver)
     = (Returned (Some (Mask (Mask (Errorf "AzureCluster not found" [])))),
        (run (migration.createProxyConfigSecret fixtures.fresh) ([] : memserver.apiserver)).2).
Proof.
  destruct (@write_steps_fail_fast fixtures.noIPv6 fixtures.plainTemplates)
    as (Hpolicy & _ & Habort).
  split; [|split].
  - apply (Hpolicy fixtures.fresh migration.createProxyConfigSecret).
    right. left. reflexivity.
  - apply (Habort unit fixtures.outOfService fixtures.fresh [] migration.createProxyConfigSecret
                  [@migration.createMasterAzureMachineTemplate fixtures.plainTemplates]
                  tt tt tt (Mask fixtures.unavailable)).
    + reflexivity.
    + reflexivity.
  - apply (Habort memserver.apiserver memClient fixtures.fresh
                  [migration.createProxyConfigSecret]
                  (@migration.createKubeadmControlPlane fixtures.noIPv6 fixtures.plainTemplates)
                  [@migration.createMasterAzureMachineTemplate fixtures.plainTemplates]
                  []
                  (run (migration.createProxyConfigSecret fixtures.fresh)
                       ([] : memserver.apiserver)).2).
    + reflexivity.
    + reflexivity.
Defined.

(** C1 fails on the code. The migrator of cluster abc123 holds the
    original encryption secret in its cache under the key EncryptionSecret.
    Whether or not the secret abc123-k8s-encryption-config exists,
    [createEncryptionConfigSecret] panics on a nil pointer and leaves the
    API server as it was: it neither returns nil nor creates the secret. *)
Theorem createEncryptionConfigSecret_abc123_panics :
  migration.crs fixtures.loaded !! migration.EncryptionSecret
  = Some (CachedObject (SecretPtr fixtures.encryptionSecret))
  /\ run (migration.createEncryptionConfigSecret fixtures.loaded) fixtures.legacy
     = (Panicked "runtime error: invalid memory address or nil pointer dereference",
        fixtures.legacy)
  /\ run (migration.createEncryptionConfigSecret fixtures.loaded) fixtures.migrated
     = (Panicked "runtime error: invalid memory address or nil pointer dereference",
        fixtures.migrated).
Proof. repeat split; vm_compute; reflexivity. Qed.


(* ===================================================================== *)
(** * The read steps *)
(* ===================================================================== *)

Section ReadSteps.
Import migration.
Context {S : Type} `{CtrlClient S}.

Lemma readEncryptionSecret_run (m : azureMigrator) (s s' : S) (r : result Secret) :
  call (GetSecret {| key_Namespace := "default";
                     key_Name := clusterID m +:+ "-encryption" |}) s = (r, s') ->
  run (readEncryptionSecret m) s
  = (Returned match r with
              | Ok obj => (set_crs m EncryptionSecret (CachedObject (SecretPtr obj)), None)
              | Err err => (m, Some (Mask err))
              end, s').
Proof. intros Hcall. cbn. rewrite Hcall. by destruct r. Qed.

Lemma length_0 {A : Type} (l : list A) : l = [] -> (length l =? 0)%nat = true.
Proof. by intros ->. Qed.

Lemma length_many {A : Type} (l : list A) :
  (2 <= length l)%nat -> (length l =? 0)%nat = false /\ (1 <? length l)%nat = true.
Proof.
  intros Hlen. split; [apply Nat.eqb_neq | apply Nat.ltb_lt]; lia.
Qed.

(** [readAzureConfig] after the answer of the client. *)
Lemma readAzureConfig_run (m : azureMigrator) (s s' : S) (objList : listOf AzureConfig) :
  call (ListAzureConfig (selector m)) s = (Ok objList, s') ->
  (Items objList = [] ->
   run (readAzureConfig m) s
   = (Returned (m, Some (Mask (Errorf "AzureConfig not found for %q" [clusterID m]))), s'))
  /\ ((2 <= length (Items objList))%nat ->
      run (readAzureConfig m) s
      = (Returned (m, Some (Mask (Errorf "more than one AzureConfig for cluster ID %q"
                                    [clusterID m]))), s'))
  /\ (forall obj, Items objList = [obj] ->
                  run (readAzureConfig m) s
                  = (Returned (set_crs m (Kind (typeMeta obj))
                                       (CachedObject (AzureConfigPtr obj)), None), s')).
Proof.
  intros Hcall. unfold readAzureConfig, readCluster, readAzureCluster, readMachinePools, readAzureMachinePools. cbn [run].
  rewrite Hcall. repeat split.
  - intros Hnone. by rewrite (length_0 _ Hnone).
  - intros Hmany. destruct (length_many _ Hmany) as [-> ->]. reflexivity.
  - intros obj ->. reflexivity.
Qed.

(** [readCluster] after the answer of the client. *)
Lemma readCluster_run (m : azureMigrator) (s s' : S) (objList : listOf Cluster) :
  call (ListCluster (selector m)) s = (Ok objList, s') ->
  (Items objList = [] ->
   run (readCluster m) s
   = (Returned (m, Some (Mask (Errorf "Cluster not found for %q" [clusterID m]))), s'))
  /\ ((2 <= length (Items objList))%nat ->
      run (readCluster m) s
      = (Returned (m, Some (Mask (Errorf "more than one Cluster for cluster ID %q"
                                    [clusterID m]))), s'))
  /\ (forall obj, Items objList = [obj] ->
                  run (readCluster m) s
                  = (Returned (set_crs m (Kind (typeMeta obj))
                                       (CachedObject (ClusterPtr obj)), None), s')).
Proof.
  intros Hcall. unfold readAzureConfig, readCluster, readAzureCluster, readMachinePools, readAzureMachinePools. cbn [run].
  rewrite Hcall. repeat split.
  - intros Hnone. by rewrite (length_0 _ Hnone).
  - intros Hmany. destruct (length_many _ Hmany) as [-> ->]. reflexivity.
  - intros obj ->. reflexivity.
Qed.

(** [readAzureCluster] after the answer of the client. *)
Lemma readAzureCluster_run (m : azureMigrator) (s s' : S) (objList : listOf AzureCluster) :
  call (ListAzureCluster (selector m)) s = (Ok objList, s') ->
  (Items objList = [] ->
   run (readAzureCluster m) s
   = (Returned (m, Some (Mask (Errorf "AzureCluster not found for %q" [clusterID m]))), s'))
  /\ ((2 <= length (Items objList))%nat ->
      run (readAzureCluster m) s
      = (Returned (m, Some (Mask (Errorf "more than one AzureCluster for cluster ID %q"
                                    [clusterID m]))), s'))
  /\ (forall obj, Items objList = [obj] ->
                  run (readAzureCluster m) s
                  = (Returned (set_crs m (Kind (typeMeta obj))
                                       (CachedObject (AzureClusterPtr obj)), None), s')).
Proof.
  intros Hcall. unfold readAzureConfig, readCluster, readAzureCluster, readMachinePools, readAzureMachinePools. cbn [run].
  rewrite Hcall. repeat split.
  - intros Hnone. by rewrite (length_0 _ Hnone).
  - intros Hmany. destruct (length_many _ Hmany) as [-> ->]. reflexivity.
  - intros obj ->. reflexivity.
Qed.



(** A failed list call is returned masked and nothing is cached. *)
Lemma read_list_error (m : azureMigrator) (s s' : S) (err : error) :
  (call (ListAzureConfig (selector m)) s = (Err err, s') ->
   run (readAzureConfig m) s = (Returned (m, Some (Mask err)), s'))
  /\ (call (ListCluster (selector m)) s = (Err err, s') ->
      run (readCluster m) s = (Returned (m, Some (Mask err)), s'))
  /\ (call (ListAzureCluster (selector m)) s = (Err err, s') ->
      run (readAzureCluster m) s = (Returned (m, Some (Mask err)), s')).
Proof.
  repeat split; intros Hcall;
    unfold readAzureConfig, readCluster, readAzureCluster, readMachinePools, readAzureMachinePools; cbn [run];
    by rewrite Hcall.
Qed.

End ReadSteps.

(** C6. For every cluster ID and every client: when the list call of
    [readCluster] returns no Cluster the step fails with the not-found
    error; when it returns two or more it fails with the multiple-found
    error; in both cases and when the call itself fails nothing is cached;
    when it returns exactly one that object is cached and the step returns
    nil.  [readAzureConfig] and [readAzureCluster] fail in the same way on
    zero and on two or more objects. *)
Theorem read_zero_multi_policy :
  forall (S : Type) (client : CtrlClient S) (m : migration.azureMigrator) (s s' : S),
    (forall objList : listOf Cluster,
        call (ListCluster (migration.selector m)) s = (Ok objList, s') ->
        (Items objList = [] ->
         run (migration.readCluster m) s
         = (Returned (m, Some (Mask (Errorf "Cluster not found for %q"
                                       [migration.clusterID m]))), s'))
        /\ ((2 <= length (Items objList))%nat ->
            run (migration.readCluster m) s
            = (Returned (m, Some (Mask (Errorf "more than one Cluster for cluster ID %q"
                                          [migration.clusterID m]))), s'))
        /\ (forall obj,
               Items objList = [obj] ->
               run (migration.readCluster m) s
               = (Returned (migration.set_crs m (Kind (typeMeta obj))
                                              (CachedObject (ClusterPtr obj)), None), s')))
    /\ (forall err : error,
           call (ListCluster (migration.selector m)) s = (Err err, s') ->
           run (migration.readCluster m) s = (Returned (m, Some (Mask err)), s'))
    /\ (forall objList : listOf AzureConfig,
           call (ListAzureConfig (migration.selector m)) s = (Ok objList, s') ->
           (Items objList = [] ->
            run (migration.readAzureConfig m) s
            = (Returned (m, Some (Mask (Errorf "AzureConfig not found for %q"
                                          [migration.clusterID m]))), s'))
           /\ ((2 <= length (Items objList))%nat ->
               run (migration.readAzureConfig m) s
               = (Returned (m, Some (Mask (Errorf "more than one AzureConfig for cluster ID %q"
                                             [migration.clusterID m]))), s')))
    /\ (forall objList : listOf AzureCluster,
           call (ListAzureCluster (migration.selector m)) s = (Ok objList, s') ->
           (Items objList = [] ->
            run (migration.readAzureCluster m) s
            = (Returned (m, Some (Mask (Errorf "AzureCluster not found for %q"
                                          [migration.clusterID m]))), s'))
           /\ ((2 <= length (Items objList))%nat ->
               run (migration.readAzureCluster m) s
               = (Returned (m, Some (Mask (Errorf "more than one AzureCluster for cluster ID %q"
                                             [migration.clusterID m]))), s'))).
Proof.
  intros S client m s s'. split; [|split; [|split]].
  - intros objList Hcall. by apply readCluster_run.
  - intros err Hcall. by apply (read_list_error m s s' err).
  - intros objList Hcall.
    destruct (readAzureConfig_run m s s' objList Hcall) as (Hnone & Hmany & _). by split.
  - intros objList Hcall.
    destruct (readAzureCluster_run m s s' objList Hcall) as (Hnone & Hmany & _). by split.
Qed.

Lemma read_zero_multi_policy_witness :
  run (migration.readCluster fixtures.fresh) ([] : memserver.apiserver)
  = (Returned (fixtures.fresh, Some (Mask (Errorf "Cluster not found for %q" ["abc123"]))), [])
  /\ run (migration.readCluster fixtures.fresh) fixtures.twoClusters
     = (Returned (fixtures.fresh,
                  Some (Mask (Errorf "more than one Cluster for cluster ID %q" ["abc123"]))),
        fixtures.twoClusters)
  /\ run (migration.readCluster fixtures.fresh) fixtures.legacy
     = (Returned (migration.set_crs fixtures.fresh "Cluster"
                    (CachedObject (ClusterPtr (fixtures.cluster "abc123" "Cluster" None))),
                  None), fixtures.legacy)
  /\ @run unit fixtures.outOfService _ (migration.readCluster fixtures.fresh) tt
     = (Returned (fixtures.fresh, Some (Mask fixtures.unavailable)), tt)
  /\ run (migration.readAzureConfig fixtures.fresh) fixtures.twoClusters
     = (Returned (fixtures.fresh,
                  Some (Mask (Errorf "AzureConfig not found for %q" ["abc123"]))),
        fixtures.twoClusters)
  /\ run (migration.readAzureCluster fixtures.fresh) fixtures.twoClusters
     = (Returned (fixtures.fresh,
                  Some (Mask (Errorf "AzureCluster not found for %q" ["abc123"]))),
        fixtures.twoClusters).
Proof.
  destruct (read_zero_multi_policy memserver.apiserver memClient fixtures.fresh
              fixtures.twoClusters fixtures.twoClusters)
    as (Hcluster & _ & Hconfig & Hazure).
  split; [|split; [|split; [|split; [|split]]]].
  - apply (proj1 (read_zero_multi_policy memserver.apiserver memClient fixtures.fresh [] [])
                 {| listTypeMeta := {| Kind := "ClusterList"; APIVersion := "" |};
                    Items := [] |}); reflexivity.
  - apply (Hcluster {| listTypeMeta := {| Kind := "ClusterList"; APIVersion := "" |};
                       Items := [fixtures.cluster "abc123" "Cluster" None;
                                 fixtures.cluster "abc123-b" "Cluster" None] |}).
    + vm_compute. reflexivity.
    + cbn. lia.
  - apply (proj1 (read_zero_multi_policy memserver.apiserver memClient fixtures.fresh
                    fixtures.legacy fixtures.legacy)
                 {| listTypeMeta := {| Kind := "ClusterList"; APIVersion := "" |};
                    Items := [fixtures.cluster "abc123" "Cluster" None] |}
                 ltac:(vm_compute; reflexivity)).
    reflexivity.
  - apply (proj1 (proj2 (read_zero_multi_policy unit fixtures.outOfService fixtures.fresh
                           tt tt))).
    reflexivity.
  - apply (Hconfig {| listTypeMeta := {| Kind := "AzureConfigList"; APIVersion := "" |};
                      Items := [] |}); reflexivity.
  - apply (Hazure {| listTypeMeta := {| Kind := "AzureClusterList"; APIVersion := "" |};
                     Items := [] |}); reflexivity.
Defined.





(* ===================================================================== *)
(** * The Cluster reconciler *)
(* ===================================================================== *)

Section Reconciler.
Import controllers.
Context {S : Type} `{CtrlClient S}.

(** When [Get] fails, [Reconcile] returns the error masked, with the empty
    result, after advancing its loop counter; no handler runs. *)
Lemma ReconcileWith_get_error (reconcile_ reconcileDelete_ : handler)
      (r : ClusterReconciler) (req : Request) (s s' : S) (err : error) :
  call (GetCluster (NamespacedName req)) s = (Err err, s') ->
  run (ReconcileWith reconcile_ reconcileDelete_ r req) s
  = (Returned (nextLoop r, ({| Requeue := false; RequeueAfter := 0 |}, Some (Mask err))), s').
Proof. intros Hget. unfold ReconcileWith. cbn [run]. by rewrite Hget. Qed.

(** The handler [Reconcile] dispatches to. *)
Lemma ReconcileWith_dispatch (reconcile_ reconcileDelete_ : handler)
      (r : ClusterReconciler) (req : Request) (s s1 : S) (cluster : Cluster) :
  call (GetCluster (NamespacedName req)) s = (Ok cluster, s1) ->
  run (ReconcileWith reconcile_ reconcileDelete_ r req) s
  = match run ((if negb (IsZero (DeletionTimestamp (objectMeta cluster)))
                then reconcileDelete_ else reconcile_)
                 (nextLoop r) (loggerMeta (nextLoop r) req) cluster) s1 with
    | (Returned (r', (res, Some err)), s2) =>
        (Returned (logf r' (failedToReconcile (loggerMeta (nextLoop r) req) err (30 * Second)),
                   ({| Requeue := false; RequeueAfter := 30 * Second |}, None)), s2)
    | (Returned (r', (res, None)), s2) => (Returned (r', (res, None)), s2)
    | (Panicked msg, s2) => (Panicked msg, s2)
    end.
Proof.
  intros Hget. unfold ReconcileWith. cbn [run]. rewrite Hget.
  destruct (negb (IsZero (DeletionTimestamp (objectMeta cluster)))); rewrite run_bind;
    match goal with
    | |- context [run ?p s1] => destruct (run p s1) as [[[r' [res [err|]]]|msg] s2]
    end; reflexivity.
Qed.

End Reconciler.

(** C8. For every reconcile invocation in which the Cluster object is
    fetched and the handler it is dispatched to, [reconcileDelete] when the
    deletion timestamp is set and [reconcile] otherwise, returns an error,
    [Reconcile] returns a nil error and a result that asks for a requeue
    after 30 seconds, that is 30 000 000 000 nanoseconds, having logged the
    error. *)
Theorem Reconcile_handler_error_requeues_after_30s :
  forall (S : Type) (client : CtrlClient S)
         (reconcile_ reconcileDelete_ : controllers.handler)
         (r r' : controllers.ClusterReconciler) (req : controllers.Request)
         (s s1 s2 : S) (cluster : Cluster) (res : controllers.Result) (err : error),
    call (GetCluster (controllers.NamespacedName req)) s = (Ok cluster, s1) ->
    run ((if negb (IsZero (DeletionTimestamp (objectMeta cluster)))
          then reconcileDelete_ else reconcile_)
           (controllers.nextLoop r) (controllers.loggerMeta (controllers.nextLoop r) req)
           cluster) s1
    = (Returned (r', (res, Some err)), s2) ->
    run (controllers.ReconcileWith reconcile_ reconcileDelete_ r req) s
    = (Returned
         (controllers.logf r'
            (controllers.failedToReconcile
               (controllers.loggerMeta (controllers.nextLoop r) req) err (30 * Second)),
          ({| controllers.Requeue := false; controllers.RequeueAfter := 30 * Second |}, None)),
       s2)
    /\ 30 * Second = 30000000000.
Proof.
  intros S client reconcile_ reconcileDelete_ r r' req s s1 s2 cluster res err Hget Hhandler.
  split; [|reflexivity].
  rewrite (ReconcileWith_dispatch reconcile_ reconcileDelete_ r req s s1 cluster Hget).
  by rewrite Hhandler.
Qed.

Lemma Reconcile_handler_error_requeues_after_30s_witness :
  (exists r',
      run (controllers.ReconcileWith fixtures.failing controllers.reconcileDelete
             fixtures.reconciler fixtures.request) fixtures.legacy
      = (Returned (r', ({| controllers.Requeue := false;
                           controllers.RequeueAfter := 30000000000 |}, None)),
         fixtures.legacy))
  /\ (exists r',
         run (controllers.ReconcileWith controllers.reconcile fixtures.failing
                fixtures.reconciler fixtures.request)
             [ClusterPtr (fixtures.cluster "abc123" "Cluster" (Some 63750000000))]
         = (Returned (r', ({| controllers.Requeue := false;
                              controllers.RequeueAfter := 30000000000 |}, None)),
            [ClusterPtr (fixtures.cluster "abc123" "Cluster" (Some 63750000000))])).
Proof.
  split; eexists.
  - apply (Reconcile_handler_error_requeues_after_30s
             memserver.apiserver memClient fixtures.failing controllers.reconcileDelete
             fixtures.reconciler (controllers.nextLoop fixtures.reconciler) fixtures.request
             fixtures.legacy fixtures.legacy fixtures.legacy
             (fixtures.cluster "abc123" "Cluster" None)
             {| controllers.Requeue := false; controllers.RequeueAfter := 0 |}
             (OtherError "vault is sealed")).
    + reflexivity.
    + reflexivity.
  - apply (Reconcile_handler_error_requeues_after_30s
             memserver.apiserver memClient controllers.reconcile fixtures.failing
             fixtures.reconciler (controllers.nextLoop fixtures.reconciler) fixtures.request
             [ClusterPtr (fixtures.cluster "abc123" "Cluster" (Some 63750000000))]
             [ClusterPtr (fixtures.cluster "abc123" "Cluster" (Some 63750000000))]
             [ClusterPtr (fixtures.cluster "abc123" "Cluster" (Some 63750000000))]
             (fixtures.cluster "abc123" "Cluster" (Some 63750000000))
             {| controllers.Requeue := false; controllers.RequeueAfter := 0 |}
             (OtherError "vault is sealed")).
    + reflexivity.
    + reflexivity.
Defined.

(** The two handlers of the source never fail: with them [Reconcile]
    returns the empty result and no error whenever the Cluster is there. *)
Lemma Reconcile_present (S : Type) (client : CtrlClient S)
      (r : controllers.ClusterReconciler) (req : controllers.Request)
      (s s1 : S) (cluster : Cluster) :
  call (GetCluster (controllers.NamespacedName req)) s = (Ok cluster, s1) ->
  exists r',
    run (controllers.Reconcile r req) s
    = (Returned (r', ({| controllers.Requeue := false; controllers.RequeueAfter := 0 |}, None)),
       s1).
Proof.
  intros Hget. unfold controllers.Reconcile.
  rewrite (ReconcileWith_dispatch _ _ r req s s1 cluster Hget).
  destruct (negb (IsZero (DeletionTimestamp (objectMeta cluster)))); eexists; reflexivity.
Qed.

(** C3, as amended. For every reconcile request whose Cluster object is
    absent from the store, so that [Get] fails with a not-found error,
    [Reconcile] returns the empty result, with no requeue asked for,
    together with that error under a mask: a not-found error still.  The
    request is handed back to the framework as failed, not dropped. *)
Theorem Reconcile_absent_returns_not_found :
  forall (S : Type) (client : CtrlClient S)
         (r : controllers.ClusterReconciler) (req : controllers.Request)
         (s s' : S) (err : error),
    call (GetCluster (controllers.NamespacedName req)) s = (Err err, s') ->
    IsNotFound err = true ->
    run (controllers.Reconcile r req) s
    = (Returned (controllers.nextLoop r,
                 ({| controllers.Requeue := false; controllers.RequeueAfter := 0 |},
                  Some (Mask err))), s')
    /\ IsNotFound (Mask err) = true.
Proof.
  intros S client r req s s' err Hget Hnotfound. split; [|exact Hnotfound].
  by apply ReconcileWith_get_error.
Qed.

Lemma Reconcile_absent_returns_not_found_witness :
  run (controllers.Reconcile fixtures.reconciler fixtures.request) ([] : memserver.apiserver)
  = (Returned (controllers.nextLoop fixtures.reconciler,
               ({| controllers.Requeue := false; controllers.RequeueAfter := 0 |},
                Some (Mask (StatusError StatusReasonNotFound "abc123")))), [])
  /\ IsNotFound (Mask (StatusError StatusReasonNotFound "abc123")) = true.
Proof.
  apply (Reconcile_absent_returns_not_found
           memserver.apiserver memClient fixtures.reconciler fixtures.request [] []
           (StatusError StatusReasonNotFound "abc123")).
  - reflexivity.
  - reflexivity.
Defined.

(** The claim C3 as the specification states it fails: with no Cluster
    abc123 in the store, [Reconcile] returns a non-nil error. *)
Lemma Reconcile_absent_counterexample :
  memserver.get asCluster (controllers.NamespacedName fixtures.request) []
  = Err (StatusError StatusReasonNotFound "abc123")
  /\ run (controllers.Reconcile fixtures.reconciler fixtures.request) ([] : memserver.apiserver)
     = (Returned ({| controllers.Log := []; controllers.loopSeq := 1 |},
                  ({| controllers.Requeue := false; controllers.RequeueAfter := 0 |},
                   Some (Mask (StatusError StatusReasonNotFound "abc123")))), [])
  /\ ~ (exists r' res,
           run (controllers.Reconcile fixtures.reconciler fixtures.request)
               ([] : memserver.apiserver)
           = (Returned (r', (res, None)), [])).
Proof.
  split; [reflexivity|]. split; [reflexivity|].
  intros (r' & res & Hrun). vm_compute in Hrun. discriminate Hrun.
Qed.

(* ===================================================================== *)
(** * Further properties: the base domain *)
(* ===================================================================== *)

Lemma Split_nonempty (s : string) (sep : ascii) : strings.Split s sep <> [].
Proof.
  destruct s as [|c s]; cbn; [discriminate|].
  destruct (Ascii.eqb c sep); [discriminate|].
  destruct (strings.Split s sep); discriminate.
Qed.

(** Splitting a text with a separator in the middle splits both sides. *)
Lemma Split_app (a b : string) :
  strings.Split (a +:+ String "." b) "." = (strings.Split a "." ++ strings.Split b ".")%list.
Proof.
  induction a as [|c a IH]; [reflexivity|].
  change (String c a +:+ String "." b) with (String c (a +:+ String "." b)).
  cbn [strings.Split]. rewrite IH.
  destruct (Ascii.eqb c "."); [reflexivity|].
  pose proof (Split_nonempty a ".") as Hne.
  destruct (strings.Split a ".") as [|field fields]; [congruence|]. reflexivity.
Qed.

Lemma append_empty_r (x : string) : x +:+ "" = x.
Proof.
  induction x as [|c x IH]; [reflexivity|].
  change (String c x +:+ "") with (String c (x +:+ "")). by rewrite IH.
Qed.

Lemma append_assoc3 (x y z : string) : (x +:+ y) +:+ z = x +:+ (y +:+ z).
Proof.
  induction x as [|c x IH]; [reflexivity|].
  change ((String c x +:+ y) +:+ z) with (String c ((x +:+ y) +:+ z)).
  by rewrite IH.
Qed.

(** The text of a joined list ends with the text of any of its tails. *)
Lemma Join_app_suffix (l1 l2 : list string) :
  exists pre, strings.Join (l1 ++ l2)%list "." = pre +:+ strings.Join l2 ".".
Proof.
  unfold strings.Join. induction l1 as [|x l1 [pre IH]]; [by exists ""|].
  cbn [app String.concat].
  destruct (l1 ++ l2)%list as [|y rest] eqn:Hrest.
  - apply app_eq_nil in Hrest as [_ ->]. exists x. cbn [String.concat].
    by rewrite append_empty_r.
  - rewrite IH. exists (x +:+ "." +:+ pre).
    by rewrite !append_assoc3.
Qed.

Lemma baseDomain_loop_ok (labels done todo : list string) (domain : string) :
  labels = (done ++ todo)%list ->
  migration.baseDomain_loop labels (length done) todo = Ok domain ->
  exists after, domain = strings.Join after "." /\ exists before, labels = (before ++ after)%list.
Proof.
  revert done. induction todo as [|l todo IH]; intros done Hlabels Hloop; [discriminate|].
  cbn [migration.baseDomain_loop] in Hloop.
  destruct (String.eqb l "k8s").
  - injection Hloop as <-. exists (drop (length done + 1) labels). split; [reflexivity|].
    exists (take (length done + 1) labels). by rewrite take_drop.
  - replace (length done + 1)%nat with (length (done ++ [l])%list) in Hloop
      by (rewrite length_app; reflexivity).
    apply (IH (done ++ [l])%list); [|exact Hloop].
    rewrite Hlabels. by rewrite <- app_assoc.
Qed.

(** X1. A host made of a prefix with no label k8s, then the label k8s,
    then a domain, gives back that domain, whatever the domain is. *)
Theorem baseDomain_of_prefixed_host (prefix domain : string) :
  "k8s" ∉ strings.Split prefix "." ->
  migration.getInstallationBaseDomainFromAPIEndpoint (prefix +:+ ".k8s." +:+ domain)
  = Ok domain.
Proof.
  intros Hnotin. unfold migration.getInstallationBaseDomainFromAPIEndpoint.
  assert (Hsplit : strings.Split (prefix +:+ ".k8s." +:+ domain) "."
                   = (strings.Split prefix "." ++ "k8s" :: strings.Split domain ".")%list).
  { change (".k8s." +:+ domain) with (String "." ("k8s" +:+ String "." domain)).
    rewrite Split_app. reflexivity. }
  rewrite Hsplit.
  rewrite (baseDomain_loop_found _ [] (strings.Split prefix ".") (strings.Split domain "."));
    [|reflexivity|exact Hnotin].
  by rewrite Join_Split.
Qed.

Lemma baseDomain_of_prefixed_host_witness :
  migration.getInstallationBaseDomainFromAPIEndpoint ("api.g8s" +:+ ".k8s." +:+ "eu.k8s.test")
  = Ok "eu.k8s.test".
Proof.
  apply baseDomain_of_prefixed_host.
  intros Hin. apply list_elem_of_In in Hin. cbn in Hin.
  destruct Hin as [Hin|[Hin|[]]]; discriminate Hin.
Defined.

(** X2. Whenever a base domain is returned, the host ends with it. *)
Theorem baseDomain_is_suffix (host domain : string) :
  migration.getInstallationBaseDomainFromAPIEndpoint host = Ok domain ->
  exists pre, host = pre +:+ domain.
Proof.
  unfold migration.getInstallationBaseDomainFromAPIEndpoint. intros Hok.
  apply (baseDomain_loop_ok _ [] _ domain eq_refl) in Hok
    as (after & -> & before & Hlabels).
  destruct (Join_app_suffix before after) as [pre Hpre].
  exists pre. rewrite <- Hpre, <- Hlabels. cbn [app]. by rewrite Join_Split.
Qed.

Lemma baseDomain_is_suffix_witness :
  exists pre, "api.abc123.k8s.example.installation.com" = pre +:+ "example.installation.com".
Proof. apply baseDomain_is_suffix. reflexivity. Defined.

(* ===================================================================== *)
(** * Further properties: the VNet and the master IP *)
(* ===================================================================== *)

Section MoreMasterIP.
Import migration.
Context `{net.IPv6Text}.

(** X3. [getVNETCIDR] fails on a cluster with no CIDR block, naming the
    cluster, and otherwise looks at the first block only: two clusters
    whose block lists start with the same text get the same answer,
    whatever follows in the lists and whatever else differs. *)
Theorem getVNETCIDR_first_block_only :
  (forall (m : azureMigrator) (cluster : AzureCluster),
      NetworkSpec_Vnet_CIDRBlocks (body cluster) = [] ->
      getVNETCIDR m cluster
      = Err (Mask (Errorf "VNET CIDR not found for %q" [Name (objectMeta cluster)])))
  /\ (forall (m1 m2 : azureMigrator) (cluster1 cluster2 : AzureCluster)
             (block : string) (more1 more2 : list string),
         NetworkSpec_Vnet_CIDRBlocks (body cluster1) = block :: more1 ->
         NetworkSpec_Vnet_CIDRBlocks (body cluster2) = block :: more2 ->
         getVNETCIDR m1 cluster1 = getVNETCIDR m2 cluster2).
Proof.
  split.
  - intros m cluster Hnone. unfold getVNETCIDR. by rewrite Hnone.
  - intros m1 m2 cluster1 cluster2 block more1 more2 H1 H2.
    unfold getVNETCIDR. by rewrite H1, H2.
Qed.

(** The last byte of an IPv4 mask of at most 29 ones has its three low
    bits clear. *)
Lemma CIDRMask_loop_short (n : Z) :
  0 <= n <= 29 ->
  exists m0 m1 m2 m3,
    net.CIDRMask_loop 4 n = [m0; m1; m2; m3]
    /\ In m3 [0; 128; 192; 224; 240; 248].
Proof.
  intros Hn. cbn [net.CIDRMask_loop].
  destruct (8 <=? n) eqn:H8; [|eexists _, _, _, _; split; [reflexivity|by left]].
  destruct (8 <=? n - 8) eqn:H16; [|eexists _, _, _, _; split; [reflexivity|by left]].
  destruct (8 <=? n - 8 - 8) eqn:H24; [|eexists _, _, _, _; split; [reflexivity|by left]].
  apply Z.leb_le in H8, H16, H24.
  destruct (8 <=? n - 8 - 8 - 8) eqn:H32; [apply Z.leb_le in H32; lia|].
  eexists _, _, _, _. split; [reflexivity|].
  assert (Hcases : n = 24 \/ n = 25 \/ n = 26 \/ n = 27 \/ n = 28 \/ n = 29) by lia.
  destruct Hcases as [-> | [-> | [-> | [-> | [-> | ->]]]]]; cbn; tauto.
Qed.

(** Adding 4 to a byte masked by such a mask byte stays below 256 and
    under the mask gives the masked byte back. *)
Lemma plus_4_under_mask (x m3 : Z) :
  is_byte x ->
  In m3 [0; 128; 192; 224; 240; 248] ->
  Z.land x m3 + 4 < 256 /\ Z.land (Z.land x m3 + 4) m3 = Z.land x m3.
Proof.
  intros Hx Hm3.
  assert (Hall : forallb (fun m3 => forallb (fun x =>
                    (Z.land x m3 + 4 <? 256) && (Z.land (Z.land x m3 + 4) m3 =? Z.land x m3))
                    (seqZ 0 256)) [0; 128; 192; 224; 240; 248] = true)
    by (vm_compute; reflexivity).
  rewrite forallb_forall in Hall. specialize (Hall m3 Hm3).
  rewrite forallb_forall in Hall. specialize (Hall x).
  destruct Hx as [Hx0 Hx1].
  assert (Hin : In x (seqZ 0 256)).
  { apply list_elem_of_In, elem_of_seqZ. lia. }
  apply Hall in Hin. apply andb_true_iff in Hin as [Hlt Heq].
  split; [by apply Z.ltb_lt | by apply Z.eqb_eq].
Qed.

Lemma land_twice (x m : Z) : Z.land (Z.land x m) m = Z.land x m.
Proof. by rewrite <- Z.land_assoc, Z.land_diag. Qed.

(** X4. For every IPv4 CIDR string with a prefix length of at most 29,
    the fourth octet of the network address is at most 251, so the master
    IP is the network address plus 4 with no wrap-around, and the master
    IP lies inside the network: masked with the network mask it gives the
    network address. *)
Theorem masterIP_inside_network (s addr mask : string) (ip : net.IP) (vnet : net.IPNet)
        (n : Z) (i : nat) (ok : bool) (rest : string) :
  net.cut s "/" = Some (addr, mask) ->
  net.parseIPv4 addr = Some ip ->
  net.dtoi mask = (n, i, ok, rest) ->
  n <= 29 ->
  net.ParseCIDR s = Ok vnet ->
  exists a b c d,
    net.IP_ vnet = [a; b; c; d]
    /\ d + 4 < 256
    /\ getMasterIPForVNet vnet = Ret (net.IPv4 a b c (d + 4))
    /\ net.Mask (net.IPv4 a b c (d + 4)) (net.Mask_ vnet) = Some (net.IP_ vnet).
Proof.
  intros Hcut Hip Hdtoi Hn Hparse. unfold net.ParseCIDR in Hparse.
  rewrite Hcut, Hip, Hdtoi in Hparse.
  destruct (negb ok || negb (i =? String.length mask)%nat || (n <? 0)
            || (8 * Z.of_nat net.IPv4len <? n))%bool eqn:Hbad; [discriminate|].
  apply orb_false_iff in Hbad as [Hbad _]. apply orb_false_iff in Hbad as [_ Hneg].
  apply Z.ltb_ge in Hneg.
  destruct (net.CIDRMask n (8 * Z.of_nat net.IPv4len)) as [m|] eqn:Hmask; [|discriminate].
  assert (Hm : net.CIDRMask_loop 4 n = m).
  { change (8 * Z.of_nat net.IPv4len) with 32 in Hmask. unfold net.CIDRMask in Hmask.
    change (negb (32 =? 32) && negb (32 =? 128))%bool with false in Hmask.
    change (Z.to_nat (32 `div` 8)) with 4%nat in Hmask.
    destruct ((n <? 0) || (32 <? n))%bool; [discriminate|]. congruence. }
  destruct (CIDRMask_loop_short n ltac:(lia)) as (m0 & m1 & m2 & m3 & Hloop & Hm3).
  rewrite Hloop in Hm. subst m.
  apply parseIPv4_form in Hip as (a & b & c & d & -> & Ha & Hb & Hc & Hd).
  injection Hparse as <-. cbn [net.IP_ net.Mask_].
  destruct (plus_4_under_mask d m3 Hd Hm3) as [Hlt Hkeep].
  exists (Z.land a m0), (Z.land b m1), (Z.land c m2), (Z.land d m3).
  split; [reflexivity|]. split; [exact Hlt|]. split.
  - rewrite (getMasterIPForVNet_4 _ (Z.land a m0) (Z.land b m1) (Z.land c m2) (Z.land d m3));
      [|reflexivity].
    rewrite Z.mod_small; [reflexivity|].
    pose proof (land_is_byte d m3 Hd) as [Hd0 _]. lia.
  - change (net.Mask (net.IPv4 (Z.land a m0) (Z.land b m1) (Z.land c m2) (Z.land d m3 + 4))
                     [m0; m1; m2; m3])
      with (Some [Z.land (Z.land a m0) m0; Z.land (Z.land b m1) m1;
                  Z.land (Z.land c m2) m2; Z.land (Z.land d m3 + 4) m3]).
    rewrite !land_twice, Hkeep.
    reflexivity.
Qed.

End MoreMasterIP.

Lemma getVNETCIDR_first_block_only_witness :
  @migration.getVNETCIDR fixtures.noIPv6 fixtures.fresh (fixtures.azureCluster "AzureCluster")
  = @migration.getVNETCIDR fixtures.noIPv6 fixtures.loaded (fixtures.azureCluster "")
  /\ exists err,
      @migration.getVNETCIDR fixtures.noIPv6 fixtures.fresh
         {| typeMeta := {| Kind := ""; APIVersion := "" |};
            objectMeta := fixtures.meta "abc123" ∅ None;
            body := {| ControlPlaneEndpoint_Host := ""; NetworkSpec_Vnet_CIDRBlocks := [] |} |}
      = Err err.
Proof.
  destruct (@getVNETCIDR_first_block_only fixtures.noIPv6) as [Hnone Hfirst].
  split.
  - apply (Hfirst _ _ _ _ "10.0.0.0/16" [] []); reflexivity.
  - eexists. apply Hnone. reflexivity.
Defined.

Lemma masterIP_inside_network_witness :
  exists a b c d,
    [10; 1; 0; 0] = [a; b; c; d]
    /\ d + 4 < 256
    /\ migration.getMasterIPForVNet
         {| net.IP_ := [10; 1; 0; 0]; net.Mask_ := [255; 255; 240; 0] |}
       = Ret (net.IPv4 a b c (d + 4))
    /\ net.Mask (net.IPv4 a b c (d + 4)) [255; 255; 240; 0] = Some [10; 1; 0; 0].
Proof.
  apply (@masterIP_inside_network fixtures.noIPv6 "10.1.2.255/20" "10.1.2.255" "20"
           (net.IPv4 10 1 2 255)
           {| net.IP_ := [10; 1; 0; 0]; net.Mask_ := [255; 255; 240; 0] |}
           20 2%nat true "").
  - reflexivity.
  - reflexivity.
  - reflexivity.
  - lia.
  - reflexivity.
Defined.

(* ===================================================================== *)
(** * Further properties: the release components *)
(* ===================================================================== *)

Section ReleaseComponents.
Import migration.
Context `{net.IPv6Text} `{Templates}.

(** X5. The release is looked up under the version without one leading
    v: a version written with the v and the same version written without
    it give the same lookup, and only one v is taken off. *)
Theorem getReleaseComponents_strips_one_v (m : azureMigrator) (ver : string) :
  getReleaseComponents m ("v" +:+ ver)
  = Call (GetRelease {| key_Namespace := ""; key_Name := ver |})
         (fun r => match r with
                   | Err err => Ret (Err (Mask err))
                   | Ok r =>
                       Ret (Ok (fold_left
                                  (fun components c =>
                                     <[Component_Name c := Component_Version c]> components)
                                  (Components (body r)) (∅ : gmap string string)))
                   end)
  /\ (net.first_is ver "v" = false ->
      getReleaseComponents m ver = getReleaseComponents m ("v" +:+ ver)).
Proof.
  assert (Hstrip : strings.TrimPrefix ("v" +:+ ver) "v" = ver) by (by destruct ver).
  split; [unfold getReleaseComponents; by rewrite Hstrip|].
  intros Hnov. unfold getReleaseComponents.
  rewrite Hstrip.
  replace (strings.TrimPrefix ver "v") with ver; [reflexivity|].
  destruct ver as [|c ver]; [reflexivity|].
  cbn in Hnov. unfold strings.TrimPrefix. cbn. by rewrite Hnov.
Qed.

(** The map the loop builds holds, for each name, the version of the
    last component with that name. *)
Lemma components_last_wins (components : list ReleaseSpecComponent) (name : string) :
  fold_left (fun acc c => <[Component_Name c := Component_Version c]> acc)
            components (∅ : gmap string string) !! name
  = lastVersion components name.
Proof.
  unfold lastVersion.
  induction components as [|c components IH] using rev_ind; [reflexivity|].
  rewrite fold_left_app. cbn [fold_left]. rewrite filter_app.
  destruct (decide (Component_Name c = name)) as [Heq|Hne].
  - rewrite filter_cons_True, filter_nil by exact Heq.
    rewrite last_snoc. cbn. rewrite <- Heq. apply lookup_insert_eq.
  - rewrite filter_cons_False, filter_nil, app_nil_r by exact Hne.
    rewrite lookup_insert_ne by exact Hne. exact IH.
Qed.

(** X6. When the release is found, [getReleaseComponents] returns a map
    in which every component name of the release is bound to the version
    of the last component of that name, and no other name is bound; when
    the lookup fails it returns the error of the client under a mask.  It
    makes this one call on the client and no other. *)
Theorem getReleaseComponents_last_wins {S : Type} `{CtrlClient S}
        (m : azureMigrator) (ver : string) (s s' : S) (answer : result Release) :
  call (GetRelease {| key_Namespace := ""; key_Name := strings.TrimPrefix ver "v" |}) s
  = (answer, s') ->
  match answer with
  | Ok r =>
      exists components,
        run (getReleaseComponents m ver) s = (Returned (Ok components), s')
        /\ forall name, components !! name = lastVersion (Components (body r)) name
  | Err err => run (getReleaseComponents m ver) s = (Returned (Err (Mask err)), s')
  end.
Proof.
  intros Hcall. unfold getReleaseComponents. cbn [run]. rewrite Hcall.
  destruct answer as [r|err]; [|reflexivity].
  eexists. split; [reflexivity|]. intros name. apply components_last_wins.
Qed.

End ReleaseComponents.

Lemma getReleaseComponents_strips_one_v_witness :
  migration.getReleaseComponents fixtures.fresh "14.1.0"
  = migration.getReleaseComponents fixtures.fresh ("v" +:+ "14.1.0").
Proof.
  apply (proj2 (getReleaseComponents_strips_one_v fixtures.fresh "14.1.0")).
  reflexivity.
Defined.

Lemma getReleaseComponents_last_wins_witness :
  exists components,
    run (migration.getReleaseComponents fixtures.fresh "v14.1.0")
        [ReleasePtr fixtures6.releaseTwice]
    = (Returned (Ok components), [ReleasePtr fixtures6.releaseTwice])
    /\ forall name,
        components !! name
        = lastVersion (Components (body fixtures6.releaseTwice)) name.
Proof.
  apply (getReleaseComponents_last_wins (S := memserver.apiserver) fixtures.fresh "v14.1.0"
           [ReleasePtr fixtures6.releaseTwice] [ReleasePtr fixtures6.releaseTwice]
           (Ok fixtures6.releaseTwice)).
  reflexivity.
Defined.

(* ===================================================================== *)
(** * Further properties: what the steps do before they call the client *)
(* ===================================================================== *)

Section StepEdges.
Import migration.
Context `{net.IPv6Text} `{Templates} {S : Type} `{CtrlClient S}.

Lemma baseDomain_found (host : string) :
  "k8s" ∈ strings.Split host "." ->
  exists domain, getInstallationBaseDomainFromAPIEndpoint host = Ok domain.
Proof.
  intros Hin. apply list_elem_of_split_l in Hin as (before & after & Hsplit & Hnotin).
  exists (strings.Join after "."). unfold getInstallationBaseDomainFromAPIEndpoint.
  rewrite Hsplit at 2.
  apply (baseDomain_loop_found _ [] before after); [exact Hsplit | exact Hnotin].
Qed.

(** X7. [createEncryptionConfigSecret] fails without calling the client
    when the cache has no entry under EncryptionSecret, and when the entry
    is not a Secret; and run on the cache a successful
    [readEncryptionSecret] leaves, it panics without calling the
    client. *)
Theorem createEncryptionConfigSecret_outcomes (m : azureMigrator) (s : S) :
  (crs m !! EncryptionSecret = None ->
   run (createEncryptionConfigSecret m) s
   = (Returned (Some (Mask (Errorf "encryption secret not found" []))), s))
  /\ (forall obj,
         crs m !! EncryptionSecret = Some obj ->
         assertSecret obj = None ->
         run (createEncryptionConfigSecret m) s
         = (Returned (Some (Mask (Errorf "can't convert obj (%T) to %T"
                                    [typeName obj; "*v1.Secret"]))), s))
  /\ (forall (s0 : S) (secret : Secret),
         call (GetSecret {| key_Namespace := "default";
                            key_Name := clusterID m +:+ "-encryption" |}) s0
         = (Ok secret, s) ->
         exists m',
           run (readEncryptionSecret m) s0 = (Returned (m', None), s)
           /\ run (createEncryptionConfigSecret m') s
              = (Panicked "runtime error: invalid memory address or nil pointer dereference",
                 s)).
Proof.
  split; [|split].
  - intros Hnone. unfold createEncryptionConfigSecret. by rewrite Hnone.
  - intros obj Hobj Hother. unfold createEncryptionConfigSecret. by rewrite Hobj, Hother.
  - intros s0 secret Hget. eexists. split.
    + apply (readEncryptionSecret_run m s0 s (Ok secret) Hget).
    + rewrite (createEncryptionConfigSecret_nil_dereference _ secret); [reflexivity|].
      apply lookup_insert_eq.
Qed.

(** X8. [createKubeadmControlPlane] returns an error without calling the
    client when the cache has no entry under AzureCluster, when the
    endpoint host of the cached cluster has no label k8s, and when the host
    is fine but the cluster has no CIDR block.  The errors of the two
    helpers come back under two masks. *)
Theorem createKubeadmControlPlane_fails_before_any_call (m : azureMigrator) (s : S) :
  (crs m !! "AzureCluster" = None ->
   run (createKubeadmControlPlane m) s
   = (Returned (Some (Mask (Errorf "AzureCluster not found" []))), s))
  /\ (forall (cluster : AzureCluster) (tmpl : Template),
         crs m !! "AzureCluster" = Some (CachedObject (AzureClusterPtr cluster)) ->
         ParseFS "templates/kubeadm_controlplane_azure.yaml.tmpl" = Ok tmpl ->
         "k8s" ∉ strings.Split (ControlPlaneEndpoint_Host (body cluster)) "." ->
         run (createKubeadmControlPlane m) s
         = (Returned (Some (Mask (Mask (Errorf
              "can't find domain label 'k8s' from ControlPlaneEndpoint.Host" [])))), s))
  /\ (forall (cluster : AzureCluster) (tmpl : Template),
         crs m !! "AzureCluster" = Some (CachedObject (AzureClusterPtr cluster)) ->
         ParseFS "templates/kubeadm_controlplane_azure.yaml.tmpl" = Ok tmpl ->
         "k8s" ∈ strings.Split (ControlPlaneEndpoint_Host (body cluster)) "." ->
         NetworkSpec_Vnet_CIDRBlocks (body cluster) = [] ->
         run (createKubeadmControlPlane m) s
         = (Returned (Some (Mask (Mask (Errorf "VNET CIDR not found for %q"
                                          [Name (objectMeta cluster)])))), s)).
Proof.
  split; [|split].
  - intros Hnone. unfold createKubeadmControlPlane. by rewrite Hnone.
  - intros cluster tmpl Hcached Htmpl Hnolabel.
    unfold createKubeadmControlPlane. rewrite Hcached. cbn [assertAzureCluster].
    rewrite Htmpl. unfold getInstallationBaseDomainFromAPIEndpoint.
    by rewrite baseDomain_loop_missing.
  - intros cluster tmpl Hcached Htmpl Hlabel Hnone.
    unfold createKubeadmControlPlane. rewrite Hcached. cbn [assertAzureCluster].
    rewrite Htmpl.
    destruct (baseDomain_found _ Hlabel) as [domain ->].
    unfold getVNETCIDR. by rewrite Hnone.
Qed.

(** X9. [readAzureCluster] caches the cluster under the Kind field the
    object carries, and [createKubeadmControlPlane] looks it up under the
    fixed key AzureCluster: after a successful read into a cache without
    that key, the write step finds the cluster if the Kind field is
    AzureCluster and fails with the not-found error if it is anything
    else. *)
Theorem readAzureCluster_then_createKubeadmControlPlane
        (m : azureMigrator) (s s' : S) (objList : listOf AzureCluster) (obj : AzureCluster) :
  crs m !! "AzureCluster" = None ->
  call (ListAzureCluster (selector m)) s = (Ok objList, s') ->
  Items objList = [obj] ->
  exists m',
    run (readAzureCluster m) s = (Returned (m', None), s')
    /\ (Kind (typeMeta obj) = "AzureCluster" ->
        crs m' !! "AzureCluster" = Some (CachedObject (AzureClusterPtr obj)))
    /\ (Kind (typeMeta obj) <> "AzureCluster" ->
        forall s2 : S,
          run (createKubeadmControlPlane m') s2
          = (Returned (Some (Mask (Errorf "AzureCluster not found" []))), s2)).
Proof.
  intros Hfree Hlist Hone.
  destruct (readAzureCluster_run m s s' objList Hlist) as (_ & _ & Hrun).
  eexists. split; [exact (Hrun obj Hone)|]. split.
  - intros ->. apply lookup_insert_eq.
  - intros Hkind s2. unfold createKubeadmControlPlane. cbn [crs set_crs].
    rewrite lookup_insert_ne by exact Hkind. by rewrite Hfree.
Qed.

(** X10. With an AzureCluster whose first CIDR block is an IPv6 network,
    [createKubeadmControlPlane] fetches the release and then panics in
    [getMasterIPForVNet]; nothing is created. *)
Theorem createKubeadmControlPlane_IPv6_panics
        (m : azureMigrator) (cluster : AzureCluster) (tmpl : Template) (domain : string)
        (vnet : net.IPNet) (s s' : S) (release : Release) :
  crs m !! "AzureCluster" = Some (CachedObject (AzureClusterPtr cluster)) ->
  ParseFS "templates/kubeadm_controlplane_azure.yaml.tmpl" = Ok tmpl ->
  getInstallationBaseDomainFromAPIEndpoint (ControlPlaneEndpoint_Host (body cluster))
  = Ok domain ->
  getVNETCIDR m cluster = Ok vnet ->
  net.To4 (net.IP_ vnet) = None ->
  call (GetRelease {| key_Namespace := "";
                      key_Name := strings.TrimPrefix
                                    (default "" (Labels (objectMeta cluster) !! ReleaseVersion))
                                    "v" |}) s
  = (Ok release, s') ->
  run (createKubeadmControlPlane m) s = (Panicked "VNET CIDR is IPv6", s')
  /\ createCalls (createKubeadmControlPlane m) s = 0%nat.
Proof.
  intros Hcached Htmpl Hdomain Hvnet Hv6 Hget.
  unfold createKubeadmControlPlane. rewrite Hcached. cbn [assertAzureCluster].
  rewrite Htmpl, Hdomain, Hvnet.
  unfold getReleaseComponents, getMasterIPForVNet. rewrite Hv6.
  cbn [bind run createCalls]. rewrite Hget. split; reflexivity.
Qed.

Ltac count_creates :=
  unfold deref;
  repeat first
    [ progress cbn [createCalls bind deref]
    | match goal with
      | |- context [call ?op ?s] => destruct (call op s) as [? ?]
      | |- context [match ?x with _ => _ end] => destruct x
      end ];
  try lia.

(** X11. Every write step calls [Create] at most once, and no read step
    calls it, whatever the client answers. *)
Theorem write_steps_create_at_most_once (m : azureMigrator) (s : S) :
  ((createCalls (createEncryptionConfigSecret m) s = 0
    /\ createCalls (createProxyConfigSecret m) s = 1
    /\ createCalls (createKubeadmControlPlane m) s <= 1
    /\ createCalls (createMasterAzureMachineTemplate m) s <= 1
    /\ createCalls (createWorkersKubeadmConfigTemplate m) s <= 1
    /\ createCalls (createWorkersAzureMachineTemplate m) s <= 1
    /\ createCalls (createWorkersMachineDeployment m) s <= 1)
   /\ createCalls (readEncryptionSecret m) s = 0
   /\ createCalls (readAzureConfig m) s = 0
   /\ createCalls (readCluster m) s = 0
   /\ createCalls (readAzureCluster m) s = 0
   /\ createCalls (readMachinePools m) s = 0
   /\ createCalls (readAzureMachinePools m) s = 0)%nat.
Proof.
  repeat split.
  - destruct (createEncryptionConfigSecret_never_succeeds m) as [[msg ->]|[err ->]];
      reflexivity.
  - unfold createProxyConfigSecret. count_creates.
  - unfold createKubeadmControlPlane, getReleaseComponents, getMasterIPForVNet. count_creates.
  - unfold createMasterAzureMachineTemplate. count_creates.
  - unfold createWorkersKubeadmConfigTemplate. count_creates.
  - unfold createWorkersAzureMachineTemplate. count_creates.
  - unfold createWorkersMachineDeployment. count_creates.
  - unfold readEncryptionSecret. count_creates.
  - unfold readAzureConfig. count_creates.
  - unfold readCluster. count_creates.
  - unfold readAzureCluster. count_creates.
  - unfold readMachinePools. count_creates.
  - unfold readAzureMachinePools. count_creates.
Qed.

End StepEdges.

Lemma createEncryptionConfigSecret_outcomes_witness :
  run (migration.createEncryptionConfigSecret fixtures.fresh) fixtures.legacy
  = (Returned (Some (Mask (Errorf "encryption secret not found" []))), fixtures.legacy)
  /\ run (migration.createEncryptionConfigSecret
            (migration.set_crs fixtures.fresh "EncryptionSecret"
               (CachedObject (ClusterPtr (fixtures.cluster "abc123" "Cluster" None)))))
         fixtures.legacy
     = (Returned (Some (Mask (Errorf "can't convert obj (%T) to %T"
                                [ "*v1alpha3.Cluster"; "*v1.Secret"]))), fixtures.legacy)
  /\ exists m',
      run (migration.readEncryptionSecret fixtures.fresh) fixtures.legacy
      = (Returned (m', None), fixtures.legacy)
      /\ run (migration.createEncryptionConfigSecret m') fixtures.legacy
         = (Panicked "runtime error: invalid memory address or nil pointer dereference",
            fixtures.legacy).
Proof.
  split; [|split].
  - apply (proj1 (createEncryptionConfigSecret_outcomes (S := memserver.apiserver)
                    fixtures.fresh fixtures.legacy)).
    reflexivity.
  - apply (proj1 (proj2 (createEncryptionConfigSecret_outcomes (S := memserver.apiserver)
                           (migration.set_crs fixtures.fresh "EncryptionSecret"
                              (CachedObject (ClusterPtr (fixtures.cluster "abc123" "Cluster" None))))
                           fixtures.legacy))
                 (CachedObject (ClusterPtr (fixtures.cluster "abc123" "Cluster" None)))).
    + apply lookup_insert_eq.
    + reflexivity.
  - apply (proj2 (proj2 (createEncryptionConfigSecret_outcomes (S := memserver.apiserver)
                           fixtures.fresh fixtures.legacy))
                 fixtures.legacy fixtures.encryptionSecret).
    reflexivity.
Defined.

Lemma createKubeadmControlPlane_fails_before_any_call_witness :
  run (@migration.createKubeadmControlPlane fixtures.noIPv6 fixtures.plainTemplates
         fixtures.fresh) fixtures.legacy
  = (Returned (Some (Mask (Errorf "AzureCluster not found" []))), fixtures.legacy)
  /\ run (@migration.createKubeadmControlPlane fixtures.noIPv6 fixtures.plainTemplates
            (migration.set_crs fixtures.fresh "AzureCluster"
               (CachedObject (AzureClusterPtr
                  {| typeMeta := {| Kind := "AzureCluster"; APIVersion := "" |};
                     objectMeta := fixtures.meta "abc123" ∅ None;
                     body := {| ControlPlaneEndpoint_Host := "api.example.com";
                                NetworkSpec_Vnet_CIDRBlocks := [] |} |}))))
         fixtures.legacy
     = (Returned (Some (Mask (Mask (Errorf
          "can't find domain label 'k8s' from ControlPlaneEndpoint.Host" [])))),
        fixtures.legacy)
  /\ run (@migration.createKubeadmControlPlane fixtures.noIPv6 fixtures.plainTemplates
            (migration.set_crs fixtures.fresh "AzureCluster"
               (CachedObject (AzureClusterPtr
                  {| typeMeta := {| Kind := "AzureCluster"; APIVersion := "" |};
                     objectMeta := fixtures.meta "abc123" ∅ None;
                     body := {| ControlPlaneEndpoint_Host := "api.k8s.example.com";
                                NetworkSpec_Vnet_CIDRBlocks := [] |} |}))))
         fixtures.legacy
     = (Returned (Some (Mask (Mask (Errorf "VNET CIDR not found for %q" ["abc123"])))),
        fixtures.legacy).
Proof.
  split; [|split].
  - apply (proj1 (@createKubeadmControlPlane_fails_before_any_call
                    fixtures.noIPv6 fixtures.plainTemplates memserver.apiserver memClient
                    fixtures.fresh fixtures.legacy)).
    reflexivity.
  - apply (proj1 (proj2 (@createKubeadmControlPlane_fails_before_any_call
                           fixtures.noIPv6 fixtures.plainTemplates memserver.apiserver memClient
                           (migration.set_crs fixtures.fresh "AzureCluster"
                              (CachedObject (AzureClusterPtr
                  {| typeMeta := {| Kind := "AzureCluster"; APIVersion := "" |};
                     objectMeta := fixtures.meta "abc123" ∅ None;
                     body := {| ControlPlaneEndpoint_Host := "api.example.com";
                                NetworkSpec_Vnet_CIDRBlocks := [] |} |})))
                           fixtures.legacy))
                 {| typeMeta := {| Kind := "AzureCluster"; APIVersion := "" |};
                     objectMeta := fixtures.meta "abc123" ∅ None;
                     body := {| ControlPlaneEndpoint_Host := "api.example.com";
                                NetworkSpec_Vnet_CIDRBlocks := [] |} |}
                 "templates/kubeadm_controlplane_azure.yaml.tmpl").
    + apply lookup_insert_eq.
    + reflexivity.
    + intros Hin. apply list_elem_of_In in Hin. cbn in Hin.
      destruct Hin as [Hin|[Hin|[Hin|[]]]]; discriminate Hin.
  - apply (proj2 (proj2 (@createKubeadmControlPlane_fails_before_any_call
                           fixtures.noIPv6 fixtures.plainTemplates memserver.apiserver memClient
                           (migration.set_crs fixtures.fresh "AzureCluster"
                              (CachedObject (AzureClusterPtr
                  {| typeMeta := {| Kind := "AzureCluster"; APIVersion := "" |};
                     objectMeta := fixtures.meta "abc123" ∅ None;
                     body := {| ControlPlaneEndpoint_Host := "api.k8s.example.com";
                                NetworkSpec_Vnet_CIDRBlocks := [] |} |})))
                           fixtures.legacy))
                 {| typeMeta := {| Kind := "AzureCluster"; APIVersion := "" |};
                     objectMeta := fixtures.meta "abc123" ∅ None;
                     body := {| ControlPlaneEndpoint_Host := "api.k8s.example.com";
                                NetworkSpec_Vnet_CIDRBlocks := [] |} |}
                 "templates/kubeadm_controlplane_azure.yaml.tmpl").
    + apply lookup_insert_eq.
    + reflexivity.
    + apply list_elem_of_In. cbn. tauto.
    + reflexivity.
Defined.

Lemma readAzureCluster_then_createKubeadmControlPlane_witness :
  (exists m',
      run (migration.readAzureCluster fixtures.fresh) fixtures.legacy
      = (Returned (m', None), fixtures.legacy)
      /\ migration.crs m' !! "AzureCluster"
         = Some (CachedObject (AzureClusterPtr (fixtures.azureCluster "AzureCluster"))))
  /\ (exists m',
         run (migration.readAzureCluster fixtures.fresh) fixtures.legacyUntyped
         = (Returned (m', None), fixtures.legacyUntyped)
         /\ run (@migration.createKubeadmControlPlane fixtures.noIPv6 fixtures.plainTemplates m')
                fixtures.legacyUntyped
            = (Returned (Some (Mask (Errorf "AzureCluster not found" []))),
               fixtures.legacyUntyped)).
Proof.
  split.
  - destruct (@readAzureCluster_then_createKubeadmControlPlane
                fixtures.noIPv6 fixtures.plainTemplates memserver.apiserver memClient
                fixtures.fresh fixtures.legacy fixtures.legacy
                {| listTypeMeta := {| Kind := "AzureClusterList"; APIVersion := "" |};
                   Items := [fixtures.azureCluster "AzureCluster"] |}
                (fixtures.azureCluster "AzureCluster")
                eq_refl ltac:(vm_compute; reflexivity) eq_refl)
      as (m' & Hrun & Hfound & _).
    exists m'. split; [exact Hrun|]. apply Hfound. reflexivity.
  - destruct (@readAzureCluster_then_createKubeadmControlPlane
                fixtures.noIPv6 fixtures.plainTemplates memserver.apiserver memClient
                fixtures.fresh fixtures.legacyUntyped fixtures.legacyUntyped
                {| listTypeMeta := {| Kind := "AzureClusterList"; APIVersion := "" |};
                   Items := [fixtures.azureCluster ""] |}
                (fixtures.azureCluster "")
                eq_refl ltac:(vm_compute; reflexivity) eq_refl)
      as (m' & Hrun & _ & Hmissing).
    exists m'. split; [exact Hrun|]. apply Hmissing. discriminate.
Defined.

Lemma createKubeadmControlPlane_IPv6_panics_witness :
  run (@migration.createKubeadmControlPlane fixtures6.ulaText fixtures.plainTemplates
         fixtures6.loaded6) [ReleasePtr fixtures.release]
  = (Panicked "VNET CIDR is IPv6", [ReleasePtr fixtures.release])
  /\ createCalls (@migration.createKubeadmControlPlane fixtures6.ulaText fixtures.plainTemplates
                    fixtures6.loaded6) ([ReleasePtr fixtures.release] : memserver.apiserver)
     = 0%nat.
Proof.
  apply (@createKubeadmControlPlane_IPv6_panics
           fixtures6.ulaText fixtures.plainTemplates memserver.apiserver memClient
           fixtures6.loaded6 fixtures6.azureCluster6
           "templates/kubeadm_controlplane_azure.yaml.tmpl" "example.installation.com"
           {| net.IP_ := fixtures6.ula;
              net.Mask_ := [255; 255; 255; 255; 255; 255; 0; 0; 0; 0; 0; 0; 0; 0; 0; 0] |}
           [ReleasePtr fixtures.release] [ReleasePtr fixtures.release] fixtures.release).
  - reflexivity.
  - reflexivity.
  - reflexivity.
  - vm_compute. reflexivity.
  - reflexivity.
  - reflexivity.
Defined.

(* ===================================================================== *)
(** * Further properties: the write steps on the in-memory API server *)
(* ===================================================================== *)

Lemma laterState_refl (s : memserver.apiserver) : laterState s s.
Proof. exists []. by rewrite app_nil_r. Qed.

Lemma laterState_trans (s1 s2 s3 : memserver.apiserver) :
  laterState s1 s2 -> laterState s2 s3 -> laterState s1 s3.
Proof.
  intros (l1 & -> & H1) (l2 & -> & H2). exists (l1 ++ l2)%list.
  split; [by rewrite app_assoc | by apply Forall_app].
Qed.

Lemma exists_self (o : Object) (s : memserver.apiserver) :
  memserver.exists_ o (s ++ [o])%list = true.
Proof.
  unfold memserver.exists_. rewrite existsb_app. cbn.
  rewrite Nat.eqb_refl, !String.eqb_refl. by rewrite orb_true_r.
Qed.

Lemma exists_later (o : Object) (s s' : memserver.apiserver) :
  memserver.exists_ o s = true -> laterState s s' -> memserver.exists_ o s' = true.
Proof.
  intros Hex (l & -> & _). unfold memserver.exists_ in *.
  by rewrite existsb_app, Hex.
Qed.

Lemma find_app_none {A : Type} (f : A -> bool) (l1 l2 : list A) :
  Forall (fun x => f x = false) l2 -> List.find f (l1 ++ l2)%list = List.find f l1.
Proof.
  intros Hl2. induction l1 as [|x l1 IH]; cbn.
  - induction Hl2 as [|y l2 Hy _ IH]; [reflexivity|]. cbn. by rewrite Hy.
  - destruct (f x); [reflexivity | exact IH].
Qed.

(** Creating objects that are not releases does not change what a lookup
    of a release finds. *)
Lemma get_release_later (key : ObjectKey) (s s' : memserver.apiserver) :
  laterState s s' -> memserver.get asRelease key s' = memserver.get asRelease key s.
Proof.
  intros (l & -> & Hl). unfold memserver.get. rewrite find_app_none; [reflexivity|].
  eapply Forall_impl; [exact Hl|]. intros o Ho. cbn. by rewrite Ho.
Qed.

(** The end of every write step, run on the in-memory server: the object
    is appended unless one of its type, namespace and name is there, and
    nil is returned either way. *)
Lemma create_if_absent (o : Object) (s : memserver.apiserver) :
  run (Call (Create o)
            (fun err => if migration.isAlreadyExists err then Ret None
                        else match err with
                             | Some e => Ret (Some (Mask e))
                             | None => Ret None
                             end)) s
  = (Returned None, if memserver.exists_ o s then s else (s ++ [o])%list).
Proof.
  cbn [run]. change (call (Create o) s) with (memserver.create o s).
  unfold memserver.create. by destruct (memserver.exists_ o s).
Qed.

Lemma create_if_absent_settles (o : Object) (s s1 : memserver.apiserver) :
  asRelease o = None ->
  s1 = (if memserver.exists_ o s then s else (s ++ [o])%list) ->
  laterState s s1
  /\ forall s2, laterState s1 s2 ->
                (if memserver.exists_ o s2 then s2 else (s2 ++ [o])%list) = s2.
Proof.
  intros Hrel ->. destruct (memserver.exists_ o s) eqn:Hex.
  - split; [apply laterState_refl|]. intros s2 Hlater.
    by rewrite (exists_later o s s2 Hex Hlater).
  - split; [exists [o]; split; [reflexivity|by constructor]|].
    intros s2 Hlater. by rewrite (exists_later o _ s2 (exists_self o s) Hlater).
Qed.

Section InMemory.
Import migration.
Context `{net.IPv6Text} `{Templates}.

Ltac settle_template_step :=
  let m := fresh "m" in
  let s := fresh "s" in
  let s1 := fresh "s1" in
  let Hrun := fresh "Hrun" in
  let Hs1 := fresh "Hs1" in
  let Hlater := fresh "Hlater" in
  let Hagain := fresh "Hagain" in
  let s2 := fresh "s2" in
  let Hs2 := fresh "Hs2" in
  intros m s s1 Hrun; cbv zeta in Hrun |- *;
  repeat match type of Hrun with
         | context [match ?x with _ => _ end] => destruct x; try discriminate Hrun
         end;
  rewrite create_if_absent in Hrun; injection Hrun as Hs1; symmetry in Hs1;
  match type of Hs1 with
  | _ = (if memserver.exists_ ?o _ then _ else _) =>
      destruct (create_if_absent_settles o s s1 eq_refl Hs1) as [Hlater Hagain]
  end;
  split; [exact Hlater|];
  intros s2 Hs2; rewrite create_if_absent; by rewrite (Hagain s2 Hs2).

Lemma createProxyConfigSecret_settles : settles createProxyConfigSecret.
Proof. unfold settles, createProxyConfigSecret. settle_template_step. Qed.

Lemma createMasterAzureMachineTemplate_settles : settles createMasterAzureMachineTemplate.
Proof. unfold settles, createMasterAzureMachineTemplate. settle_template_step. Qed.

Lemma createWorkersKubeadmConfigTemplate_settles : settles createWorkersKubeadmConfigTemplate.
Proof. unfold settles, createWorkersKubeadmConfigTemplate. settle_template_step. Qed.

Lemma createWorkersAzureMachineTemplate_settles : settles createWorkersAzureMachineTemplate.
Proof. unfold settles, createWorkersAzureMachineTemplate. settle_template_step. Qed.

Lemma createWorkersMachineDeployment_settles : settles createWorkersMachineDeployment.
Proof. unfold settles, createWorkersMachineDeployment. settle_template_step. Qed.

(** The release lookup gives the same answer in every later state. *)
Lemma getReleaseComponents_later (m : azureMigrator) (ver : string) (s : memserver.apiserver) :
  exists rc, forall s2, laterState s s2 ->
                        run (getReleaseComponents m ver) s2 = (Returned rc, s2).
Proof.
  unfold getReleaseComponents. cbn [run].
  set (key := {| key_Namespace := ""; key_Name := strings.TrimPrefix ver "v" |}).
  exists (match memserver.get asRelease key s with
          | Ok r => Ok (fold_left (fun components c =>
                                     <[Component_Name c := Component_Version c]> components)
                                  (Components (body r)) (∅ : gmap string string))
          | Err err => Err (Mask err)
          end).
  intros s2 Hs2.
  change (call (GetRelease key) s2) with (memserver.get asRelease key s2, s2).
  rewrite (get_release_later key s s2 Hs2).
  by destruct (memserver.get asRelease key s).
Qed.

Lemma createKubeadmControlPlane_settles : settles createKubeadmControlPlane.
Proof.
  unfold settles, createKubeadmControlPlane.
  intros m s s1 Hrun.
  destruct (crs m !! "AzureCluster") as [obj|]; [|discriminate Hrun].
  destruct (assertAzureCluster obj) as [cluster|]; [|discriminate Hrun].
  destruct (ParseFS _) as [tmpl|]; [|discriminate Hrun].
  destruct (getInstallationBaseDomainFromAPIEndpoint _) as [baseDomain|]; [|discriminate Hrun].
  destruct (getVNETCIDR m cluster) as [vnet|]; [|discriminate Hrun].
  rewrite run_bind in Hrun.
  destruct (getReleaseComponents_later m
              (default "" (Labels (objectMeta cluster) !! ReleaseVersion)) s) as [rc Hrc].
  rewrite (Hrc s (laterState_refl s)) in Hrun.
  destruct rc as [releaseComponents|]; [|discriminate Hrun].
  cbv zeta in Hrun |- *.
  rewrite run_bind in Hrun. unfold getMasterIPForVNet in Hrun |- *.
  destruct (net.To4 (net.IP_ vnet)) as [ip|]; [|discriminate Hrun].
  cbn [run] in Hrun.
  destruct (Execute tmpl _) as [buf|] eqn:Hbuf; [|discriminate Hrun].
  destruct (Unmarshal_KubeadmControlPlane buf) as [kcp|] eqn:Hkcp; [|discriminate Hrun].
  rewrite create_if_absent in Hrun. injection Hrun as Hs1. symmetry in Hs1.
  destruct (create_if_absent_settles (KubeadmControlPlanePtr kcp) s s1 eq_refl Hs1)
    as [Hlater Hagain].
  split; [exact Hlater|].
  intros s2 Hs2. rewrite run_bind.
  rewrite (Hrc s2 (laterState_trans s s1 s2 Hlater Hs2)).
  rewrite run_bind.
  change (run (Ret ?x) s2) with (Returned x, s2). cbv beta iota.
  rewrite Hbuf, Hkcp, create_if_absent. by rewrite (Hagain s2 Hs2).
Qed.

(** X12. On the in-memory API server each of the six write steps after
    the first settles: once it has returned nil, it returns nil again in
    that state and in every later one and creates nothing more. *)
Theorem write_steps_settle :
  settles createProxyConfigSecret
  /\ settles createKubeadmControlPlane
  /\ settles createMasterAzureMachineTemplate
  /\ settles createWorkersKubeadmConfigTemplate
  /\ settles createWorkersAzureMachineTemplate
  /\ settles createWorkersMachineDeployment.
Proof.
  split; [apply createProxyConfigSecret_settles|].
  split; [apply createKubeadmControlPlane_settles|].
  split; [apply createMasterAzureMachineTemplate_settles|].
  split; [apply createWorkersKubeadmConfigTemplate_settles|].
  split; [apply createWorkersAzureMachineTemplate_settles|].
  apply createWorkersMachineDeployment_settles.
Qed.

(** Steps that settle, run one after the other, settle as a whole. *)
Lemma runWriteSteps_settles (steps : list writeStep) :
  Forall settles steps -> settles (runWriteSteps steps).
Proof.
  induction 1 as [|step steps Hstep _ IH]; intros m s s1 Hrun.
  - cbn in Hrun. injection Hrun as <-. split; [apply laterState_refl|].
    intros s2 _. reflexivity.
  - cbn [runWriteSteps] in Hrun |- *. rewrite run_bind in Hrun.
    destruct (run (step m) s) as [[[err|]|msg] s'] eqn:Hfirst; try discriminate Hrun.
    destruct (Hstep m s s' Hfirst) as [Hlater1 Hagain1].
    destruct (IH m s' s1 Hrun) as [Hlater2 Hagain2].
    split; [by apply (laterState_trans s s' s1)|].
    intros s2 Hs2. cbn [runWriteSteps]. rewrite run_bind.
    rewrite (Hagain1 s2 (laterState_trans s' s1 s2 Hlater2 Hs2)).
    by apply Hagain2.
Qed.

(** X13. On the in-memory API server, when the six write steps after the
    first, run in their order, all return nil, running them a second time
    returns nil and leaves the server exactly as the first run left it. *)
Theorem six_write_steps_idempotent (m : azureMigrator) (s s1 : memserver.apiserver) :
  run (runWriteSteps [createProxyConfigSecret; createKubeadmControlPlane;
                      createMasterAzureMachineTemplate; createWorkersKubeadmConfigTemplate;
                      createWorkersAzureMachineTemplate; createWorkersMachineDeployment] m) s
  = (Returned None, s1) ->
  run (runWriteSteps [createProxyConfigSecret; createKubeadmControlPlane;
                      createMasterAzureMachineTemplate; createWorkersKubeadmConfigTemplate;
                      createWorkersAzureMachineTemplate; createWorkersMachineDeployment] m) s1
  = (Returned None, s1)
  /\ laterState s s1.
Proof.
  intros Hrun.
  assert (Hall : Forall settles
                   [createProxyConfigSecret; createKubeadmControlPlane;
                    createMasterAzureMachineTemplate; createWorkersKubeadmConfigTemplate;
                    createWorkersAzureMachineTemplate; createWorkersMachineDeployment]).
  { constructor; [apply createProxyConfigSecret_settles|].
    constructor; [apply createKubeadmControlPlane_settles|].
    constructor; [apply createMasterAzureMachineTemplate_settles|].
    constructor; [apply createWorkersKubeadmConfigTemplate_settles|].
    constructor; [apply createWorkersAzureMachineTemplate_settles|].
    constructor; [apply createWorkersMachineDeployment_settles|].
    constructor. }
  destruct (runWriteSteps_settles _ Hall m s s1 Hrun) as [Hlater Hagain].
  split; [|exact Hlater]. apply Hagain, laterState_refl.
Qed.

End InMemory.

Lemma write_steps_settle_witness :
  laterState fixtures.legacy
    (run (@migration.createKubeadmControlPlane fixtures.noIPv6 fixtures.plainTemplates
            fixtures.loaded) fixtures.legacy).2
  /\ run (@migration.createKubeadmControlPlane fixtures.noIPv6 fixtures.plainTemplates
            fixtures.loaded)
         (run (@migration.createKubeadmControlPlane fixtures.noIPv6 fixtures.plainTemplates
                 fixtures.loaded) fixtures.legacy).2
     = (Returned None,
        (run (@migration.createKubeadmControlPlane fixtures.noIPv6 fixtures.plainTemplates
                fixtures.loaded) fixtures.legacy).2).
Proof.
  destruct (proj1 (proj2 (@write_steps_settle fixtures.noIPv6 fixtures.plainTemplates))
                  fixtures.loaded fixtures.legacy
                  (@run memserver.apiserver memClient _
                        (@migration.createKubeadmControlPlane fixtures.noIPv6
                           fixtures.plainTemplates fixtures.loaded) fixtures.legacy).2
                  ltac:(vm_compute; reflexivity))
    as [Hlater Hagain].
  split; [exact Hlater|]. apply Hagain. exists []. split; [by rewrite app_nil_r|constructor].
Defined.

Lemma six_write_steps_idempotent_witness :
  run (migration.runWriteSteps
         (List.tail (@migration.writeSteps fixtures.noIPv6 fixtures.plainTemplates))
         fixtures.loaded)
      (run (migration.runWriteSteps
              (List.tail (@migration.writeSteps fixtures.noIPv6 fixtures.plainTemplates))
              fixtures.loaded) fixtures.legacy).2
  = (Returned None,
     (run (migration.runWriteSteps
             (List.tail (@migration.writeSteps fixtures.noIPv6 fixtures.plainTemplates))
             fixtures.loaded) fixtures.legacy).2)
  /\ laterState fixtures.legacy
       (run (migration.runWriteSteps
               (List.tail (@migration.writeSteps fixtures.noIPv6 fixtures.plainTemplates))
               fixtures.loaded) fixtures.legacy).2.
Proof.
  apply (@six_write_steps_idempotent fixtures.noIPv6 fixtures.plainTemplates
           fixtures.loaded fixtures.legacy).
  vm_compute. reflexivity.
Defined.

(** A stored secret is found by its key exactly when an object of its
    type, namespace and name exists. *)
Lemma get_secret_exists (o : Secret) (s : memserver.apiserver) :
  memserver.exists_ (SecretPtr o) s
  = match memserver.get asSecret
            {| key_Namespace := Namespace (objectMeta o); key_Name := Name (objectMeta o) |} s
    with
    | Ok _ => true
    | Err _ => false
    end.
Proof.
  unfold memserver.exists_, memserver.get.
  induction s as [|o' s IH]; [reflexivity|].
  cbn [existsb List.find]. rewrite IH. clear IH.
  destruct o'; cbn; try reflexivity.
  unfold memserver.hasKey. cbn.
  by destruct (String.eqb _ _ && String.eqb _ _)%bool.
Qed.

Lemma get_secret_appended (o : Secret) (s : memserver.apiserver) :
  memserver.exists_ (SecretPtr o) s = false ->
  memserver.get asSecret
    {| key_Namespace := Namespace (objectMeta o); key_Name := Name (objectMeta o) |}
    (s ++ [SecretPtr o])%list
  = Ok o.
Proof.
  unfold memserver.exists_, memserver.get.
  induction s as [|o' s IH]; intros Hnone.
  - cbn. unfold memserver.hasKey. cbn. by rewrite !String.eqb_refl.
  - cbn [existsb] in Hnone. apply orb_false_iff in Hnone as [Hhead Htail].
    cbn [app List.find]. specialize (IH Htail).
    destruct o'; cbn in Hhead |- *; try exact IH.
    unfold memserver.hasKey. cbn. rewrite Hhead. exact IH.
Qed.

(** X14. On the in-memory API server [createProxyConfigSecret] always
    returns nil.  When a secret named after the cluster with the suffix
    -proxy-config is stored in namespace default, whatever it holds, the
    server is left as it is: the secret is not updated.  When there is
    none, the server gains one object and the secret can then be fetched
    with the proxy configuration in it. *)
Theorem createProxyConfigSecret_creates_or_keeps (m : migration.azureMigrator)
        (s : memserver.apiserver) :
  (forall old : Secret,
      memserver.get asSecret {| key_Namespace := "default";
                                key_Name := migration.clusterID m +:+ "-proxy-config" |} s
      = Ok old ->
      run (migration.createProxyConfigSecret m) s = (Returned None, s))
  /\ (forall err : error,
         memserver.get asSecret {| key_Namespace := "default";
                                   key_Name := migration.clusterID m +:+ "-proxy-config" |} s
         = Err err ->
         exists (s1 : memserver.apiserver) (new : Secret),
           run (migration.createProxyConfigSecret m) s = (Returned None, s1)
           /\ length s1 = S (length s)
           /\ memserver.get asSecret
                {| key_Namespace := "default";
                   key_Name := migration.clusterID m +:+ "-proxy-config" |} s1
              = Ok new
           /\ StringData (body new) !! "proxy" = Some migration.proxyConfig).
Proof.
  unfold migration.createProxyConfigSecret. cbv zeta.
  match goal with
  | |- context [Create (SecretPtr ?o)] => set (secret := o)
  end.
  pose proof (get_secret_exists secret s) as Hexists.
  split.
  - intros old Hold. rewrite create_if_absent.
    change (Namespace (objectMeta secret)) with "default" in Hexists.
    change (Name (objectMeta secret)) with (migration.clusterID m +:+ "-proxy-config") in Hexists.
    rewrite Hold in Hexists. by rewrite Hexists.
  - intros err Herr. rewrite create_if_absent.
    change (Namespace (objectMeta secret)) with "default" in Hexists.
    change (Name (objectMeta secret)) with (migration.clusterID m +:+ "-proxy-config") in Hexists.
    rewrite Herr in Hexists. rewrite Hexists.
    exists (s ++ [SecretPtr secret])%list, secret. split; [reflexivity|]. split; [|split].
    + rewrite length_app. cbn. lia.
    + apply (get_secret_appended secret s Hexists).
    + apply lookup_singleton_eq.
Qed.

Lemma createProxyConfigSecret_creates_or_keeps_witness :
  run (migration.createProxyConfigSecret fixtures.fresh)
      [SecretPtr {| typeMeta := {| Kind := "Secret"; APIVersion := "v1" |};
                    objectMeta := fixtures.meta "abc123-proxy-config" ∅ None;
                    body := {| Data := ∅; StringData := {[ "proxy" := "mode: ipvs" ]};
                               Type_ := SecretTypeOpaque |} |}]
  = (Returned None,
     [SecretPtr {| typeMeta := {| Kind := "Secret"; APIVersion := "v1" |};
                   objectMeta := fixtures.meta "abc123-proxy-config" ∅ None;
                   body := {| Data := ∅; StringData := {[ "proxy" := "mode: ipvs" ]};
                              Type_ := SecretTypeOpaque |} |}])
  /\ exists (s1 : memserver.apiserver) (new : Secret),
      run (migration.createProxyConfigSecret fixtures.fresh) fixtures.legacy
      = (Returned None, s1)
      /\ length s1 = S (length fixtures.legacy)
      /\ memserver.get asSecret
           {| key_Namespace := "default"; key_Name := "abc123" +:+ "-proxy-config" |} s1
         = Ok new
      /\ StringData (body new) !! "proxy" = Some migration.proxyConfig.
Proof.
  split.
  - apply (proj1 (createProxyConfigSecret_creates_or_keeps fixtures.fresh _)
                 {| typeMeta := {| Kind := "Secret"; APIVersion := "v1" |};
                    objectMeta := fixtures.meta "abc123-proxy-config" ∅ None;
                    body := {| Data := ∅; StringData := {[ "proxy" := "mode: ipvs" ]};
                               Type_ := SecretTypeOpaque |} |}).
    reflexivity.
  - apply (proj2 (createProxyConfigSecret_creates_or_keeps fixtures.fresh fixtures.legacy)
                 (StatusError StatusReasonNotFound "abc123-proxy-config")).
    reflexivity.
Defined.

(* ===================================================================== *)
(** * Further properties: the read steps and the cache *)
(* ===================================================================== *)

Section KeepsCache.
Import migration.












End KeepsCache.

(* ===================================================================== *)
(** * Further properties: the reconciler as it is *)
(* ===================================================================== *)

Section ReconcilerAsIs.
Import controllers.
Context {S : Type} `{CtrlClient S}.

Lemma int64_range (n : Z) : - 2 ^ 63 <= int64 n < 2 ^ 63.
Proof.
  unfold int64. pose proof (Z.mod_pos_bound (n + 2 ^ 63) (2 ^ 64) ltac:(lia)). lia.
Qed.

(** X16. With the two handlers of the source, [Reconcile] never panics,
    never asks for a requeue and never calls [Create]: it returns the empty
    result, with an error exactly when [Get] failed, and it advances the
    loop counter by one within the range of a 64-bit integer. *)
Theorem Reconcile_never_requeues (r : ClusterReconciler) (req : Request) (s : S) :
  exists r' err,
    run (Reconcile r req) s
    = (Returned (r', ({| Requeue := false; RequeueAfter := 0 |}, err)),
       (call (GetCluster (NamespacedName req)) s).2)
    /\ (err = None <-> exists cluster, (call (GetCluster (NamespacedName req)) s).1 = Ok cluster)
    /\ loopSeq r' = int64 (loopSeq r + 1)
    /\ - 2 ^ 63 <= loopSeq r' < 2 ^ 63
    /\ createCalls (Reconcile r req) s = 0%nat.
Proof.
  unfold Reconcile, ReconcileWith, reconcile, reconcileDelete.
  cbn [run createCalls].
  destruct (call (GetCluster (NamespacedName req)) s) as [[cluster|err] s'].
  - destruct (negb (IsZero (DeletionTimestamp (objectMeta cluster))));
      cbn [bind run createCalls fst snd];
      (eexists _, None; split; [reflexivity|]; split; [|split; [reflexivity|split]];
       [ split; [eauto | reflexivity] | apply int64_range | reflexivity ]).
  - cbn [run createCalls fst snd]. eexists _, (Some (Mask err)).
    split; [reflexivity|]. split; [|split; [reflexivity|split]].
    + split; [discriminate | intros [cluster Hc]; discriminate Hc].
    + apply int64_range.
    + reflexivity.
Qed.

(** X17. When the Cluster is fetched, [Reconcile] logs one debug entry
    that tells which handler ran: reconcileDelete when the deletion
    timestamp is set and not the zero time, reconcile when it is absent or
    zero.  The entry carries the controller name, the namespaced name of
    the request and the new loop number. *)
Theorem Reconcile_dispatches_on_deletion (r : ClusterReconciler) (req : Request)
        (s s1 : S) (cluster : Cluster) :
  call (GetCluster (NamespacedName req)) s = (Ok cluster, s1) ->
  exists r',
    run (Reconcile r req) s
    = (Returned (r', ({| Requeue := false; RequeueAfter := 0 |}, None)), s1)
    /\ Log r'
       = (Log r ++
          [{| log_level := "debug";
              log_meta := loggerMeta (nextLoop r) req;
              log_error := None;
              log_format := match DeletionTimestamp (objectMeta cluster) with
                            | Some t => if t =? 0 then "calling reconcile"
                                        else "calling reconcileDelete"
                            | None => "calling reconcile"
                            end;
              log_operands := [] |}])%list
    /\ loggerMeta (nextLoop r) req !! "controller" = Some "cluster"
    /\ loggerMeta (nextLoop r) req !! "object"
       = Some (key_Namespace (NamespacedName req) +:+ "/" +:+ key_Name (NamespacedName req))
    /\ loggerMeta (nextLoop r) req !! "loop" = Some (fmt.FormatInt (int64 (loopSeq r + 1))).
Proof.
  intros Hget. unfold Reconcile.
  rewrite (ReconcileWith_dispatch reconcile reconcileDelete r req s s1 cluster Hget).
  unfold IsZero, reconcile, reconcileDelete.
  destruct (DeletionTimestamp (objectMeta cluster)) as [t|]; [destruct (t =? 0)|];
    cbn [negb run];
    (eexists; split; [reflexivity|]; split; [reflexivity|]; repeat split).
Qed.

(** X18. Over any pair of handlers, when the Cluster is fetched and the
    handler it is dispatched to returns no error, [Reconcile] returns what
    the handler returned, its requeue request included, and the reconciler
    as the handler left it; when [Get] fails no handler runs. *)
Theorem ReconcileWith_passes_result_through
        (reconcile_ reconcileDelete_ : handler) (r r' : ClusterReconciler) (req : Request)
        (s s1 s2 : S) (cluster : Cluster) (res : Result) :
  call (GetCluster (NamespacedName req)) s = (Ok cluster, s1) ->
  run ((if negb (IsZero (DeletionTimestamp (objectMeta cluster)))
        then reconcileDelete_ else reconcile_)
         (nextLoop r) (loggerMeta (nextLoop r) req) cluster) s1
  = (Returned (r', (res, None)), s2) ->
  run (ReconcileWith reconcile_ reconcileDelete_ r req) s = (Returned (r', (res, None)), s2).
Proof.
  intros Hget Hhandler.
  rewrite (ReconcileWith_dispatch reconcile_ reconcileDelete_ r req s s1 cluster Hget).
  by rewrite Hhandler.
Qed.

End ReconcilerAsIs.

Lemma Reconcile_dispatches_on_deletion_witness :
  exists r',
    run (controllers.Reconcile fixtures.reconciler fixtures.request)
        [ClusterPtr (fixtures.cluster "abc123" "Cluster" (Some 63750000000))]
    = (Returned (r', ({| controllers.Requeue := false; controllers.RequeueAfter := 0 |}, None)),
       [ClusterPtr (fixtures.cluster "abc123" "Cluster" (Some 63750000000))])
    /\ controllers.Log r'
       = ([] ++
          [{| controllers.log_level := "debug";
              controllers.log_meta :=
                controllers.loggerMeta (controllers.nextLoop fixtures.reconciler)
                                       fixtures.request;
              controllers.log_error := None;
              controllers.log_format := "calling reconcileDelete";
              controllers.log_operands := [] |}])%list
    /\ controllers.loggerMeta (controllers.nextLoop fixtures.reconciler) fixtures.request
       !! "controller" = Some "cluster"
    /\ controllers.loggerMeta (controllers.nextLoop fixtures.reconciler) fixtures.request
       !! "object" = Some ("default" +:+ "/" +:+ "abc123")
    /\ controllers.loggerMeta (controllers.nextLoop fixtures.reconciler) fixtures.request
       !! "loop" = Some (fmt.FormatInt (controllers.int64 (0 + 1))).
Proof.
  apply (Reconcile_dispatches_on_deletion (S := memserver.apiserver)
           fixtures.reconciler fixtures.request
           [ClusterPtr (fixtures.cluster "abc123" "Cluster" (Some 63750000000))]
           [ClusterPtr (fixtures.cluster "abc123" "Cluster" (Some 63750000000))]
           (fixtures.cluster "abc123" "Cluster" (Some 63750000000))).
  reflexivity.
Defined.

Lemma ReconcileWith_passes_result_through_witness :
  run (controllers.ReconcileWith fixtures6.requeuing controllers.reconcileDelete
         fixtures.reconciler fixtures.request) fixtures.legacy
  = (Returned (controllers.nextLoop fixtures.reconciler,
               ({| controllers.Requeue := true; controllers.RequeueAfter := 5 * Second |}, None)),
     fixtures.legacy).
Proof.
  apply (ReconcileWith_passes_result_through (S := memserver.apiserver)
           fixtures6.requeuing controllers.reconcileDelete
           fixtures.reconciler (controllers.nextLoop fixtures.reconciler) fixtures.request
           fixtures.legacy fixtures.legacy fixtures.legacy
           (fixtures.cluster "abc123" "Cluster" None)
           {| controllers.Requeue := true; controllers.RequeueAfter := 5 * Second |}).
  - reflexivity.
  - reflexivity.
Defined.
